(** * Verification of the two Netlify proxy functions

    The repository holds two serverless handlers: [netlify/functions/imf-api.js]
    (the Fund proxy) and a second, near-identical handler for the World Bank
    API (the Development Bank proxy).  This development embeds both handlers,
    together with the part of the JavaScript run time they rely on, and proves
    the properties the specification states about them.

    Conventions of the embedding.
    - A JavaScript string is a [string]; one [ascii] stands for one code unit
      (code units above 255 are outside the model).
    - A JavaScript number is a binary64 [float].
    - A thrown exception is the left summand of [result].
    - What the network and the JSON decoder answer is an input of the model. *)

From Stdlib Require Import ZArith List String Ascii Bool Lia.
From Stdlib Require Import DecimalString Floats.
From stdpp Require Import base option list gmap strings.

Set Warnings "-inexact-float,-register-all".

Local Open Scope string_scope.
Local Open Scope Z_scope.

(* ===================================================================== *)
(** * Part 1: the JavaScript run time the handlers use                    *)
(* ===================================================================== *)

Module Js.

(** ** Strings *)

(** The double-quote character, code unit 34. *)
Definition dquote : string := String "034"%char EmptyString.

Definition str_concat (l : list string) : string :=
  fold_right String.append EmptyString l.

Fixpoint str_join (sep : string) (l : list string) : string :=
  match l with
  | [] => EmptyString
  | [x] => x
  | x :: rest => x ++ sep ++ str_join sep rest
  end.

Fixpoint str_repeat (c : ascii) (n : nat) : string :=
  match n with
  | O => EmptyString
  | S k => String c (str_repeat c k)
  end.

(** [s.substring(0, n)]: the first [n] code units of [s], all of [s] when it
    is shorter. *)
Definition substring (n : nat) (s : string) : string := String.substring 0 n s.

(** Decimal digits of a natural number, as [String(n)] prints an integer. *)
Definition decimal (n : N) : string :=
  DecimalString.NilZero.string_of_uint (N.to_uint n).

(** ** Numbers: [Number::toString] in radix 10

    A finite positive double is [m * 2^e] with [m] its integer significand.
    It and the two ends of its rounding interval are scaled to integers over
    a common power of ten, [10^q]. *)

Record scaled := {
  sc_x : Z;        (* the number itself *)
  sc_lo : Z;       (* lower end of the rounding interval *)
  sc_hi : Z;       (* upper end of the rounding interval *)
  sc_closed : bool;(* the ends round to the number (even significand) *)
  sc_q : Z         (* all three are multiples of 10^q *)
}.

Definition scale (m : positive) (e : Z) : scaled :=
  let m := Zpos m in
  let narrow := (m =? 2 ^ 52) && (-1074 <? e) in
  let e2 := e - 2 in
  let s := if 0 <=? e2 then 2 ^ e2 else 5 ^ (- e2) in
  {| sc_x := 4 * m * s;
     sc_lo := (if narrow then 4 * m - 1 else 4 * m - 2) * s;
     sc_hi := (4 * m + 2) * s;
     sc_closed := Z.even m;
     sc_q := Z.min e2 0 |}.

Definition in_interval (sc : scaled) (c : Z) : bool :=
  if sc_closed sc then (sc_lo sc <=? c) && (c <=? sc_hi sc)
  else (sc_lo sc <? c) && (c <? sc_hi sc).

(** The candidates with [k] digits for a number of [len] digits: the [k]-digit
    decimals just below and just above it.  The result is the chosen digit
    string [s], if one of them rounds to the number, and whether it carried
    into one more digit. *)
Definition candidate (sc : scaled) (len k : Z) : option (Z * bool) :=
  let g := 10 ^ (len - k) in
  let s_lo := sc_x sc / g in
  let s_hi := s_lo + 1 in
  let c_lo := s_lo * g in
  let c_hi := s_hi * g in
  let ok_lo := in_interval sc c_lo in
  let ok_hi := in_interval sc c_hi in
  let d_lo := sc_x sc - c_lo in
  let d_hi := c_hi - sc_x sc in
  let pick_hi := if s_hi =? 10 ^ k then (10 ^ (k - 1), true) else (s_hi, false) in
  match ok_lo, ok_hi with
  | true, true =>
      if d_lo <? d_hi then Some (s_lo, false)
      else if d_hi <? d_lo then Some pick_hi
      else if Z.even s_lo then Some (s_lo, false) else Some pick_hi
  | true, false => Some (s_lo, false)
  | false, true => Some pick_hi
  | false, false => None
  end.

(** The least [k] with a candidate, searched upwards from [k]. *)
Fixpoint shortest (sc : scaled) (len k : Z) (fuel : nat) : Z * Z * bool :=
  match fuel with
  | O => (sc_x sc, len, false)
  | S fuel' =>
      if len <=? k then (sc_x sc, len, false)
      else match candidate sc len k with
           | Some (s, carry) => (s, k, carry)
           | None => shortest sc len (k + 1) fuel'
           end
  end.

Definition digits_of (z : Z) : string := decimal (Z.to_N z).

(** The last step of [Number::toString]: lay out the digits [ds] of [s]
    ([k] of them) for the decimal exponent [n], where the number is
    [s * 10^(n-k)]. *)
Definition layout (ds : string) (k n : Z) : string :=
  if (k <=? n) && (n <=? 21) then
    ds ++ str_repeat "0"%char (Z.to_nat (n - k))
  else if (0 <? n) && (n <=? 21) then
    String.substring 0 (Z.to_nat n) ds ++ "." ++
    String.substring (Z.to_nat n) (Z.to_nat (k - n)) ds
  else if (-6 <? n) && (n <=? 0) then
    "0." ++ str_repeat "0"%char (Z.to_nat (- n)) ++ ds
  else
    let ex := n - 1 in
    let sgn := if 0 <=? ex then "+" else "-" in
    let mant := if k =? 1 then ds
                else String.substring 0 1 ds ++ "." ++
                     String.substring 1 (Z.to_nat (k - 1)) ds in
    mant ++ "e" ++ sgn ++ digits_of (Z.abs ex).

Definition positive_toString (m : positive) (e : Z) : string :=
  let sc := scale m e in
  let len := Z.of_nat (String.length (digits_of (sc_x sc))) in
  let '(s, k, carry) := shortest sc len 1 (Z.to_nat len) in
  let n := len + sc_q sc + (if carry then 1 else 0) in
  layout (digits_of s) k n.

(** [Number::toString(x)], radix 10. *)
Definition Number_toString (x : float) : string :=
  match Prim2SF x with
  | S754_nan => "NaN"
  | S754_zero _ => "0"
  | S754_infinity false => "Infinity"
  | S754_infinity true => "-Infinity"
  | S754_finite false m e => positive_toString m e
  | S754_finite true m e => "-" ++ positive_toString m e
  end.

(** The double nearest to an integer (ties to even; infinite past the
    largest double). *)
Definition Number_of_Z (z : Z) : float := SF2Prim (binary_normalize prec emax z 0 false).

(** ** Exceptions *)

(** A thrown [Error], observed by the handlers through its [message]. *)
Record exn := Error { message : string }.

Definition result (A : Type) : Type := exn + A.

Definition ret {A} (a : A) : result A := inr a.
Definition throw {A} (e : exn) : result A := inl e.
Definition bind {A B} (r : result A) (k : A -> result B) : result B :=
  match r with
  | inl e => inl e
  | inr a => k a
  end.

Notation "'let*' x ':=' r 'in' k" := (bind r (fun x => k))
  (at level 10, x name, r at level 100, k at level 200).

(** The texts of the [TypeError]s are the ones V8 prints. *)
Definition TypeError (msg : string) : exn := Error msg.

(** ** Values *)

(** The values that travel through the handlers: decoded JSON documents, and
    [undefined] where a property is absent.  An object is the list of its own
    properties in property order. *)
Inductive value :=
| VUndefined
| VNull
| VBool (b : bool)
| VNum (x : float)
| VStr (s : string)
| VArr (items : list value)
| VObj (props : list (string * value)).

(** [ToBoolean]. *)
Definition ToBoolean (v : value) : bool :=
  match v with
  | VUndefined | VNull => false
  | VBool b => b
  | VNum x => negb (PrimFloat.is_zero x || PrimFloat.is_nan x)
  | VStr s => negb (String.eqb s EmptyString)
  | VArr _ | VObj _ => true
  end.

(** Own property lookup. *)
Fixpoint own (props : list (string * value)) (p : string) : option value :=
  match props with
  | [] => None
  | (k, v) :: rest => if String.eqb k p then Some v else own rest p
  end.

(** [base.p] for a property name [p] that no built-in prototype defines (the
    handlers read [date] and [value] from upstream data): an own property of
    an object, [undefined] on every other value, a [TypeError] on [null] and
    [undefined]. *)
Definition Get (base : value) (p : string) : result value :=
  match base with
  | VUndefined =>
      throw (TypeError ("Cannot read properties of undefined (reading '" ++ p ++ "')"))
  | VNull =>
      throw (TypeError ("Cannot read properties of null (reading '" ++ p ++ "')"))
  | VObj props => ret (default VUndefined (own props p))
  | _ => ret VUndefined
  end.

(** [ToString].  An array prints its items joined by commas, [null] and
    [undefined] items as the empty string.  A plain object prints as
    [[object Object]] through [Object.prototype.toString], unless it has an
    own [toString] property: decoded data is never callable, [valueOf] then
    returns the object itself, and the conversion throws. *)
Fixpoint ToString (v : value) : result string :=
  match v with
  | VUndefined => ret "undefined"
  | VNull => ret "null"
  | VBool true => ret "true"
  | VBool false => ret "false"
  | VNum x => ret (Number_toString x)
  | VStr s => ret s
  | VArr items =>
      let item_text (it : value) : result string :=
        match it with
        | VUndefined | VNull => ret EmptyString
        | _ => ToString it
        end in
      (fix join (l : list value) : result string :=
         match l with
         | [] => ret EmptyString
         | [it] => item_text it
         | it :: rest =>
             let* s := item_text it in
             let* r := join rest in
             ret (s ++ "," ++ r)
         end) items
  | VObj props =>
      match own props "toString" with
      | Some _ => throw (TypeError "Cannot convert object to primitive value")
      | None => ret "[object Object]"
      end
  end.

(** ** [parseInt(string)] with no radix argument *)

(** [StrWhiteSpaceChar] among the code units of the model. *)
Definition is_whitespace (c : ascii) : bool :=
  let n := nat_of_ascii c in
  ((9 <=? n) && (n <=? 13))%nat || (n =? 32)%nat || (n =? 160)%nat.

Fixpoint trim_start (s : string) : string :=
  match s with
  | String c rest => if is_whitespace c then trim_start rest else s
  | EmptyString => s
  end.

(** The value of a digit in the given radix (10 or 16). *)
Definition digit_value (radix : Z) (c : ascii) : option Z :=
  let n := Z.of_nat (nat_of_ascii c) in
  if (48 <=? n) && (n <=? 57) then Some (n - 48)
  else if radix =? 16 then
    if (97 <=? n) && (n <=? 102) then Some (n - 87)
    else if (65 <=? n) && (n <=? 70) then Some (n - 55)
    else None
  else None.

(** The longest prefix of digits, read as an integer; [None] when there is no
    digit. *)
Fixpoint read_digits (radix : Z) (acc : option Z) (s : string) : option Z :=
  match s with
  | String c rest =>
      match digit_value radix c with
      | Some d => read_digits radix (Some (radix * default 0 acc + d)) rest
      | None => acc
      end
  | EmptyString => acc
  end.

Definition strip_sign (s : string) : bool * string :=
  match s with
  | String "-" rest => (true, rest)
  | String "+" rest => (false, rest)
  | _ => (false, s)
  end.

Definition strip_hex_prefix (s : string) : Z * string :=
  match s with
  | String "0" (String "x" rest) | String "0" (String "X" rest) => (16, rest)
  | _ => (10, s)
  end.

Definition parseInt_string (input : string) : float :=
  let '(negative, s) := strip_sign (trim_start input) in
  let '(radix, s) := strip_hex_prefix s in
  match read_digits radix None s with
  | None => PrimFloat.nan
  | Some 0 => if negative then PrimFloat.neg_zero else PrimFloat.zero
  | Some n => Number_of_Z (if negative then - n else n)
  end.

(** [parseInt(v)]: the argument is converted with [ToString] first. *)
Definition parseInt (v : value) : result float :=
  let* s := ToString v in
  ret (parseInt_string s).

(** ** Property order and assignment *)

Definition is_digit (c : ascii) : bool :=
  let n := nat_of_ascii c in ((48 <=? n) && (n <=? 57))%nat.

Fixpoint all_digits (s : string) : bool :=
  match s with
  | EmptyString => true
  | String c rest => is_digit c && all_digits rest
  end.

(** An array index: the canonical decimal text of an integer between 0 and
    2^32 - 2.  Such keys come first in an object, in ascending order. *)
Definition array_index (k : string) : option Z :=
  match k with
  | EmptyString => None
  | String "0" EmptyString => Some 0
  | String "0" _ => None
  | _ =>
      if all_digits k && (Nat.leb (String.length k) 10) then
        match read_digits 10 None k with
        | Some n => if n <=? 4294967294 then Some n else None
        | None => None
        end
      else None
  end.

(** Insert a new index key [i] before the first property that is not a
    smaller index. *)
Fixpoint insert_index (i : Z) (k : string) (v : value)
    (props : list (string * value)) : list (string * value) :=
  match props with
  | [] => [(k, v)]
  | (k', v') :: rest =>
      match array_index k' with
      | Some j => if j <? i then (k', v') :: insert_index i k v rest
                  else (k, v) :: props
      | None => (k, v) :: props
      end
  end.

Fixpoint replace (k : string) (v : value)
    (props : list (string * value)) : list (string * value) :=
  match props with
  | [] => []
  | (k', v') :: rest =>
      if String.eqb k' k then (k', v) :: rest else (k', v') :: replace k v rest
  end.

(** [obj[k] = v] on a plain object with properties [props]: an existing
    property keeps its place; a new index key goes among the index keys, any
    other new key to the end. *)
Definition Set_ (props : list (string * value)) (k : string) (v : value)
    : list (string * value) :=
  match own props k with
  | Some _ => replace k v props
  | None =>
      match array_index k with
      | Some i => insert_index i k v props
      | None => props ++ [(k, v)]
      end
  end.

(** ** [JSON.stringify] *)

Definition hex_digit (n : nat) : ascii :=
  ascii_of_nat (if (n <? 10)%nat then 48 + n else 87 + n).

(** One code unit inside a JSON string ([QuoteJSONString]). *)
Definition escape (c : ascii) : string :=
  let n := nat_of_ascii c in
  let bs := String "092"%char EmptyString in
  if (n =? 8)%nat then bs ++ "b"
  else if (n =? 9)%nat then bs ++ "t"
  else if (n =? 10)%nat then bs ++ "n"
  else if (n =? 12)%nat then bs ++ "f"
  else if (n =? 13)%nat then bs ++ "r"
  else if (n =? 34)%nat then bs ++ dquote
  else if (n =? 92)%nat then bs ++ bs
  else if (n <? 32)%nat then
    bs ++ "u00" ++ String (hex_digit (n / 16)) (String (hex_digit (n mod 16)) EmptyString)
  else String c EmptyString.

Fixpoint escape_all (s : string) : string :=
  match s with
  | EmptyString => EmptyString
  | String c rest => escape c ++ escape_all rest
  end.

Definition quote (s : string) : string := dquote ++ escape_all s ++ dquote.

(** [JSON.stringify(v)]; [None] is [undefined], which it returns for
    [undefined].  An [undefined] property of an object is left out, an
    [undefined] item of an array prints as [null], and so does a number that
    is not finite. *)
Fixpoint JSON_stringify (v : value) : option string :=
  match v with
  | VUndefined => None
  | VNull => Some "null"
  | VBool true => Some "true"
  | VBool false => Some "false"
  | VNum x => Some (if PrimFloat.is_finite x then Number_toString x else "null")
  | VStr s => Some (quote s)
  | VArr items =>
      Some ("[" ++ str_join "," (map (fun it => default "null" (JSON_stringify it)) items) ++ "]")
  | VObj props =>
      let members :=
        (fix go (l : list (string * value)) : list string :=
           match l with
           | [] => []
           | (k, v') :: rest =>
               match JSON_stringify v' with
               | Some s => (quote k ++ ":" ++ s) :: go rest
               | None => go rest
               end
           end) props in
      Some ("{" ++ str_join "," members ++ "}")
  end.

End Js.

Import Js.

(* ===================================================================== *)
(** * Part 2: what both handlers share                                    *)
(* ===================================================================== *)

(** The inbound [event]: its [httpMethod], and its [queryStringParameters],
    which the platform leaves [null] ([None]) when the request has no query
    string. *)
Record event := {
  httpMethod : string;
  queryStringParameters : option (gmap string string)
}.

(** The response envelope a handler returns. [body] is [None] when
    [JSON.stringify] returns [undefined]. *)
Record envelope := {
  statusCode : N;
  headers : list (string * string);
  body : option string
}.

(** [const headers], the same object literal in both handlers. *)
Definition cors_headers : list (string * string) :=
  [ ("Access-Control-Allow-Origin", "*");
    ("Access-Control-Allow-Headers", "Content-Type");
    ("Access-Control-Allow-Methods", "GET, OPTIONS");
    ("Content-Type", "application/json") ].

(** [event.queryStringParameters || {}] *)
Definition parameters (ev : event) : gmap string string :=
  default ∅ (queryStringParameters ev).

(** Truthiness of a destructured parameter: absent and empty are falsy. *)
Definition truthy (p : option string) : bool :=
  match p with
  | Some s => negb (String.eqb s EmptyString)
  | None => false
  end.

(** The text a parameter contributes to a template literal. *)
Definition text_of (p : option string) : string := default "undefined" p.

Definition missing_parameters : value :=
  VObj [("error", VStr "Missing required parameters: indicator, country, startYear, endYear")].

Definition method_not_allowed : value :=
  VObj [("error", VStr "Method not allowed")].

(* ===================================================================== *)
(** * Part 3: the Fund handler, [netlify/functions/imf-api.js]            *)
(* ===================================================================== *)

Module Imf.

(** The [Response] of [fetch]: [text] and [json] are what [response.text()]
    and [response.json()] resolve to, or the exception they reject with. *)
Record Response := {
  status : N;
  statusText : string;
  text : result string;
  json : result value
}.

(** [response.ok]: the status is in the range 200 to 299. *)
Definition ok (r : Response) : bool :=
  ((200 <=? status r) && (status r <=? 299))%N.

(** The second argument of [fetch]. *)
Definition fetch_headers : list (string * string) :=
  [ ("Accept", "application/json");
    ("User-Agent", "Mozilla/5.0 (compatible; IMF-Dashboard/1.0)") ].

(** A run of the handler: it returns at once, or it calls [fetch] once and
    returns what the continuation makes of the answer. *)
Inductive run :=
| Return (r : envelope)
| Fetch (url : string) (init : list (string * string)) (k : result Response -> envelope).

Definition imfApiUrl (indicator country startYear endYear : string) : string :=
  "https://www.imf.org/external/datamapper/api/v1/" ++ indicator ++ "/" ++ country
  ++ "?periods=" ++ startYear ++ "-" ++ endYear.

(** The [try] block from the point where [fetch] settles. *)
Definition after_fetch (settled : result Response) : result envelope :=
  let* response := settled in
  if negb (ok response) then
    let* errorText := text response in
    throw (Error ("IMF API error: " ++ decimal (status response) ++ " "
                  ++ statusText response ++ ". " ++ substring 200 errorText))
  else
    let* data := json response in
    (* the log line: JSON.stringify(data).substring(0, 500) *)
    let* logged :=
      match JSON_stringify data with
      | Some s => ret (substring 500 s)
      | None => throw (TypeError "Cannot read properties of undefined (reading 'substring')")
      end in
    ret {| statusCode := 200; headers := cors_headers; body := JSON_stringify data |}.

(** The [catch] block. *)
Definition catch (r : result envelope) : envelope :=
  match r with
  | inr e => e
  | inl error =>
      {| statusCode := 500;
         headers := cors_headers;
         body := JSON_stringify
                   (VObj [("error", VStr "Failed to fetch data from IMF API");
                          ("message", VStr (message error))]) |}
  end.

Definition handler (ev : event) : run :=
  if String.eqb (httpMethod ev) "OPTIONS" then
    Return {| statusCode := 200; headers := cors_headers; body := Some EmptyString |}
  else if negb (String.eqb (httpMethod ev) "GET") then
    Return {| statusCode := 405; headers := cors_headers;
              body := JSON_stringify method_not_allowed |}
  else
    let q := parameters ev in
    let indicator := q !! "indicator" in
    let country := q !! "country" in
    let startYear := q !! "startYear" in
    let endYear := q !! "endYear" in
    if negb (truthy indicator) || negb (truthy country)
       || negb (truthy startYear) || negb (truthy endYear) then
      Return {| statusCode := 400; headers := cors_headers;
                body := JSON_stringify missing_parameters |}
    else
      Fetch (imfApiUrl (text_of indicator) (text_of country)
                       (text_of startYear) (text_of endYear))
            fetch_headers
            (fun settled => catch (after_fetch settled)).

(** The envelope of a run, given what [fetch] settles with if it is called. *)
Definition respond (ev : event) (settled : result Response) : envelope :=
  match handler ev with
  | Return r => r
  | Fetch _ _ k => k settled
  end.

(** The outbound calls of a run. *)
Definition calls (ev : event) : list string :=
  match handler ev with
  | Return _ => []
  | Fetch url _ _ => [url]
  end.

End Imf.

(* ===================================================================== *)
(** * Part 4: the Development Bank handler (World Bank API proxy)         *)
(* ===================================================================== *)

Module WorldBank.

(** ** Code translation *)

Definition indicatorMap : gmap string string :=
  list_to_map
    [ ("NGDP_RPCH", "NY.GDP.MKTP.KD.ZG");
      ("PCPIPCH", "FP.CPI.TOTL.ZG");
      ("LUR", "SL.UEM.TOTL.ZS");
      ("NGDPD", "NY.GDP.MKTP.CD");
      ("GDP_PCAP", "NY.GDP.PCAP.CD");
      ("BCA", "BN.CAB.XOKA.GD.ZS") ].

Definition countryMap : gmap string string :=
  list_to_map
    [ ("US", "USA"); ("CN", "CHN"); ("JP", "JPN"); ("DE", "DEU");
      ("GB", "GBR"); ("FR", "FRA"); ("KR", "KOR"); ("IN", "IND");
      ("BR", "BRA"); ("RU", "RUS"); ("CZ", "CZE"); ("SK", "SVK") ].

(** What [table[key]] can evaluate to on an object literal: an entry of the
    table, or a member the literal inherits from [Object.prototype] (one of
    its built-in functions, or the prototype object itself through
    [__proto__]). *)
Inductive member :=
| Entry (s : string)
| Builtin (name : string)
| Prototype.

(** The properties of [Object.prototype]. *)
Definition Object_prototype (p : string) : option member :=
  if String.eqb p "constructor" then Some (Builtin "Object")
  else if String.eqb p "__proto__" then Some Prototype
  else if existsb (String.eqb p)
            [ "__defineGetter__"; "__defineSetter__"; "hasOwnProperty";
              "__lookupGetter__"; "__lookupSetter__"; "isPrototypeOf";
              "propertyIsEnumerable"; "toString"; "valueOf"; "toLocaleString" ]
  then Some (Builtin p)
  else None.

(** [table[key]]: own entries first, then the prototype; [None] is
    [undefined]. *)
Definition lookup (table : gmap string string) (key : string) : option member :=
  match table !! key with
  | Some s => Some (Entry s)
  | None => Object_prototype key
  end.

(** [table[code] || code] *)
Definition translate (table : gmap string string) (code : string) : member :=
  match lookup table code with
  | Some (Entry s) => if String.eqb s EmptyString then Entry code else Entry s
  | Some m => m
  | None => Entry code
  end.

Definition wbIndicator (indicator : string) : member := translate indicatorMap indicator.
Definition wbCountry (country : string) : member := translate countryMap country.

(** The text of a member inside a template literal ([ToString]; a built-in
    function prints as V8 prints native code). *)
Definition interpolate (m : member) : string :=
  match m with
  | Entry s => s
  | Builtin name => "function " ++ name ++ "() { [native code] }"
  | Prototype => "[object Object]"
  end.

Definition wbApiUrl (country indicator : member) (startYear endYear : string) : string :=
  "https://api.worldbank.org/v2/country/" ++ interpolate country
  ++ "/indicator/" ++ interpolate indicator
  ++ "?format=json&date=" ++ startYear ++ ":" ++ endYear.

(** ** The outbound request *)

(** The [options] of [https.request].  [href] is the text handed to
    [new URL]; the request carries the [hostname] and the [pathname] and
    [search] the parser derives from that text, which are not computed
    here. *)
Record request_options := {
  href : string;
  method : string;
  request_headers : list (string * string);
  timeout : Z
}.

Definition options (url : string) : request_options :=
  {| href := url;
     method := "GET";
     request_headers := [ ("Accept", "application/json");
                          ("User-Agent", "World-Bank-Economic-Dashboard/1.0") ];
     timeout := 30000 |}.

(** ** Normalization of the upstream payload *)

(** The body of the [forEach] callback: [values] is
    [transformedData.values]. *)
Definition record (values : list (string * value)) (item : value)
    : result (list (string * value)) :=
  let* date := Get item "date" in
  if ToBoolean date then
    let* v := Get item "value" in
    match v with
    | VNull => ret values
    | _ =>
        let* year := parseInt date in
        ret (Set_ values (Number_toString year) v)
    end
  else ret values.

(** [dataArray.forEach(callback)] on an array: the items in order, stopping
    at the first exception. *)
Fixpoint forEach (items : list value) (values : list (string * value))
    : result (list (string * value)) :=
  match items with
  | [] => ret values
  | item :: rest =>
      let* values' := record values item in
      forEach rest values'
  end.

(** [jsonData[1] || []] *)
Definition dataArray (second : value) : value :=
  if ToBoolean second then second else VArr [].

(** From the shape test to [transformedData]. *)
Definition normalize (jsonData : value) : result value :=
  match jsonData with
  | VArr (metadata :: second :: _) =>
      match dataArray second with
      | VArr items =>
          let* values := forEach items [] in
          ret (VObj [("values", VObj values)])
      | _ => throw (TypeError "dataArray.forEach is not a function")
      end
  | _ => throw (Error "Invalid World Bank API response format")
  end.

(** ** The response callbacks *)

(** The upstream response when its [end] event fires: status line, the text
    each chunk received decodes to, one by one, as [data += chunk] appends
    it, and what [JSON.parse] makes of their concatenation (the decoded
    document, or the [SyntaxError] it throws). *)
Record IncomingMessage := {
  res_statusCode : N;
  statusMessage : string;
  chunks : list string;
  decoded : result value
}.

(** [data], after every [data += chunk]. *)
Definition data (res : IncomingMessage) : string :=
  fold_left String.append (chunks res) EmptyString.

(** The [try] block of the [end] listener. *)
Definition end_try (res : IncomingMessage) : result envelope :=
  if negb (res_statusCode res =? 200)%N then
    ret {| statusCode := 500;
           headers := cors_headers;
           body := JSON_stringify
                     (VObj [("error", VStr "World Bank API error");
                            ("message", VStr ("HTTP " ++ decimal (res_statusCode res)
                                              ++ ": " ++ statusMessage res));
                            ("details", VStr (substring 200 (data res)))]) |}
  else
    let* jsonData := decoded res in
    let* transformedData := normalize jsonData in
    ret {| statusCode := 200; headers := cors_headers;
           body := JSON_stringify transformedData |}.

(** The [end] listener, with its [catch (parseError)]. *)
Definition on_end (res : IncomingMessage) : envelope :=
  match end_try res with
  | inr r => r
  | inl parseError =>
      {| statusCode := 500;
         headers := cors_headers;
         body := JSON_stringify
                   (VObj [("error", VStr "Failed to parse World Bank API response");
                          ("message", VStr (message parseError));
                          ("rawData", VStr (substring 500 (data res)))]) |}
  end.

(** An optional property of an error object, [undefined] when absent. *)
Definition optional (s : option string) : value :=
  match s with
  | Some x => VStr x
  | None => VUndefined
  end.

(** The [error] listener of the request. *)
Definition on_error (msg : string) (code : option string) : envelope :=
  {| statusCode := 500;
     headers := cors_headers;
     body := JSON_stringify
               (VObj [("error", VStr "Failed to fetch data from World Bank API");
                      ("message", VStr msg);
                      ("code", optional code)]) |}.

(** What the [timeout] listener resolves with. *)
Definition on_timeout : envelope :=
  {| statusCode := 500;
     headers := cors_headers;
     body := JSON_stringify
               (VObj [("error", VStr "World Bank API request timeout");
                      ("message", VStr "Request took longer than 30 seconds")]) |}.

(** The outer [catch (error)], for an exception thrown while the request is
    built and sent. *)
Definition on_throw (msg : string) (stack : option string) : envelope :=
  {| statusCode := 500;
     headers := cors_headers;
     body := JSON_stringify
               (VObj [("error", VStr "Failed to fetch data from World Bank API");
                      ("message", VStr msg);
                      ("stack", optional stack)]) |}.

(** ** The handler *)

(** A run of the handler up to [req.end()]: the promise is settled already,
    or one request is in flight. *)
Inductive run :=
| Return (r : envelope)
| Request (o : request_options).

Definition handler (ev : event) : run :=
  if String.eqb (httpMethod ev) "OPTIONS" then
    Return {| statusCode := 200; headers := cors_headers; body := Some EmptyString |}
  else if negb (String.eqb (httpMethod ev) "GET") then
    Return {| statusCode := 405; headers := cors_headers;
              body := JSON_stringify method_not_allowed |}
  else
    let q := parameters ev in
    let indicator := q !! "indicator" in
    let country := q !! "country" in
    let startYear := q !! "startYear" in
    let endYear := q !! "endYear" in
    if negb (truthy indicator) || negb (truthy country)
       || negb (truthy startYear) || negb (truthy endYear) then
      Return {| statusCode := 400; headers := cors_headers;
                body := JSON_stringify missing_parameters |}
    else
      Request (options (wbApiUrl (wbCountry (text_of country))
                                 (wbIndicator (text_of indicator))
                                 (text_of startYear) (text_of endYear))).

(** ** The request in flight *)

(** What the run time delivers to the listeners of a request: the end of
    the response, an error of the request, its timeout; [Throw] stands for an
    exception raised while the listeners are attached and the request is
    ended, which the outer [catch] receives. *)
Inductive signal :=
| End_ (res : IncomingMessage)
| Error_ (msg : string) (code : option string)
| Timeout
| Throw (msg : string) (stack : option string).

(** The promise the handler returned, the requests made with
    [https.request], and whether [req.destroy()] was called. *)
Record flight := {
  promise : option envelope;
  requests : list request_options;
  destroyed : bool
}.

(** [resolve(r)]: only the first call settles the promise. *)
Definition resolve (r : envelope) (st : flight) : flight :=
  match promise st with
  | Some _ => st
  | None => {| promise := Some r; requests := requests st; destroyed := destroyed st |}
  end.

(** [req.destroy()] *)
Definition destroy (st : flight) : flight :=
  {| promise := promise st; requests := requests st; destroyed := true |}.

Definition deliver (st : flight) (s : signal) : flight :=
  match s with
  | End_ res => resolve (on_end res) st
  | Error_ msg code => resolve (on_error msg code) st
  | Timeout => resolve on_timeout (destroy st)
  | Throw msg stack => resolve (on_throw msg stack) st
  end.

(** The state when [req.end()] has sent the request. *)
Definition in_flight (o : request_options) : flight :=
  {| promise := None; requests := [o]; destroyed := false |}.

(** The state of a run after the run time has delivered [signals], in order,
    to the listeners of its request; a run that sends no request has no
    listeners. *)
Definition settle (ev : event) (signals : list signal) : flight :=
  match handler ev with
  | Return r => {| promise := Some r; requests := []; destroyed := false |}
  | Request o => fold_left deliver signals (in_flight o)
  end.

End WorldBank.


(* ===================================================================== *)
(** * Part 5: the specification's reading of normalization                *)
(* ===================================================================== *)

Module Spec.

(** A property of an item, [undefined] when the item has none. *)
Definition field (item : value) (p : string) : value :=
  match item with
  | VObj props => default VUndefined (own props p)
  | _ => VUndefined
  end.

Definition is_null (v : value) : bool :=
  match v with
  | VNull => true
  | _ => false
  end.

(** Present and not [null]. *)
Definition non_null (v : value) : bool :=
  match v with
  | VUndefined | VNull => false
  | _ => true
  end.

(** The property key [values[parseInt(date)]] names, when [parseInt]
    returns. *)
Definition year_key (date : value) : option string :=
  match parseInt date with
  | inr year => Some (Number_toString year)
  | inl _ => None
  end.

(** The specification's rule, word for word: an observation with a non-null
    date and a non-null value sets [values[parseInt(date)] = value]; one with
    a null value or a missing date is skipped. *)
Definition claimed_entry (observation : value) : option (string * value) :=
  let date := field observation "date" in
  let v := field observation "value" in
  if non_null date && negb (is_null v) then
    match year_key date with
    | Some k => Some (k, v)
    | None => None
    end
  else None.

(** The handler's rule: the date has to be truthy. *)
Definition entry (item : value) : option (string * value) :=
  let date := field item "date" in
  let v := field item "value" in
  if ToBoolean date && negb (is_null v) then
    match year_key date with
    | Some k => Some (k, v)
    | None => None
    end
  else None.

(** The series a rule builds from the observations in order; a later
    observation of a year overwrites an earlier one. *)
Definition build (rule : value -> option (string * value))
    (observations : list value) : gmap string value :=
  fold_left (fun values o =>
               match rule o with
               | Some (k, v) => <[k := v]> values
               | None => values
               end)
            observations ∅.

Definition claimed_series : list value -> gmap string value := build claimed_entry.
Definition series : list value -> gmap string value := build entry.

(** An item the callback can process: it is neither [null] nor [undefined],
    and if it is selected its date converts to a string. *)
Definition readable (item : value) : bool :=
  match item with
  | VUndefined | VNull => false
  | _ =>
      let date := field item "date" in
      if ToBoolean date && negb (is_null (field item "value")) then
        match ToString date with
        | inr _ => true
        | inl _ => false
        end
      else true
  end.

(** [Array.isArray(jsonData) && jsonData.length >= 2] *)
Definition well_shaped (jsonData : value) : bool :=
  match jsonData with
  | VArr items => Nat.leb 2 (List.length items)
  | _ => false
  end.

(** The payload of the specification's example. *)
Definition example_payload : value :=
  VArr [ VObj [("page", VNum 1)];
         VArr [ VObj [("date", VStr "2020"); ("value", VNum 5.1)];
                VObj [("date", VStr "2021"); ("value", VNull)];
                VObj [("date", VStr "2022"); ("value", VNum 3.0)] ] ].

(** The text of a JSON object with the single member [error]. *)
Definition error_document (msg : string) : string :=
  str_concat ["{"; dquote; "error"; dquote; ":"; dquote; msg; dquote; "}"].

(** The four required query parameters. *)
Definition required : list string := ["indicator"; "country"; "startYear"; "endYear"].

(** A query parameter that is missing or empty. *)
Definition missing_or_empty (ev : event) (p : string) : Prop :=
  parameters ev !! p = None \/ parameters ev !! p = Some EmptyString.

(** The validation test of both handlers, as one boolean. *)
Definition rejected (ev : event) : bool :=
  negb (truthy (parameters ev !! "indicator")) || negb (truthy (parameters ev !! "country"))
  || negb (truthy (parameters ev !! "startYear")) || negb (truthy (parameters ev !! "endYear")).

(** What both handlers do with a request they answer at once: the Fund
    handler returns [r] without calling [fetch]; the Development Bank handler
    settles its promise with [r], sends no request, and no later signal
    changes that. *)
Definition answered_at_once (ev : event) (r : envelope) : Prop :=
  Imf.handler ev = Imf.Return r /\ Imf.calls ev = [] /\
  WorldBank.handler ev = WorldBank.Return r /\
  forall signals,
    WorldBank.settle ev signals =
    {| WorldBank.promise := Some r; WorldBank.requests := []; WorldBank.destroyed := false |}.

(** The envelope a promise holds, if any, carries the fixed headers. *)
Definition cors_settled (st : WorldBank.flight) : Prop :=
  forall r, WorldBank.promise st = Some r -> headers r = cors_headers.

(** A well-formed query, used to exercise the handlers. *)
Definition sample_query : gmap string string :=
  list_to_map [("indicator", "LUR"); ("country", "KR");
               ("startYear", "2000"); ("endYear", "2001")].

Definition sample_event : event :=
  {| httpMethod := "GET"; queryStringParameters := Some sample_query |}.

(** The same query for a country code that names a property of
    [Object.prototype]. *)
Definition constructor_event : event :=
  {| httpMethod := "GET";
     queryStringParameters :=
       Some (list_to_map [("indicator", "LUR"); ("country", "constructor");
                          ("startYear", "2000"); ("endYear", "2001")]) |}.

(** An upstream answer of the Fund API that is not OK. *)
Definition not_found : Imf.Response :=
  {| Imf.status := 404; Imf.statusText := "Not Found";
     Imf.text := inr "no such indicator";
     Imf.json := inl (Error "Unexpected token") |}.

(** An upstream answer of the Fund API that is not OK and whose body
    cannot be read: [response.text()] rejects. *)
Definition cut_off : Imf.Response :=
  {| Imf.status := 502; Imf.statusText := "Bad Gateway";
     Imf.text := inl (Error "terminated");
     Imf.json := inl (Error "terminated") |}.

(** An observation whose date is the empty string, and one whose date is
    the number zero. *)
Definition undated : value := VObj [("date", VStr EmptyString); ("value", VNum 1)].
Definition zero_dated : value := VObj [("date", VNum 0); ("value", VNum 1)].

(** The text of the body for the specification's example. *)
Definition example_body : string :=
  str_concat ["{"; dquote; "values"; dquote; ":{";
              dquote; "2020"; dquote; ":5.1,"; dquote; "2022"; dquote; ":3}}"].

End Spec.


(** ** Vocabulary for the remaining paths of the handlers *)

Module Paths.

(** A GET request that carries the four parameters, none of them empty. *)
Definition valid_query (ev : event) (indicator country startYear endYear : string) : Prop :=
  httpMethod ev = "GET" /\
  parameters ev !! "indicator" = Some indicator /\ indicator <> EmptyString /\
  parameters ev !! "country" = Some country /\ country <> EmptyString /\
  parameters ev !! "startYear" = Some startYear /\ startYear <> EmptyString /\
  parameters ev !! "endYear" = Some endYear /\ endYear <> EmptyString.

(** The status codes the handlers use. *)
Definition statuses : list N := [200; 400; 405; 500]%N.

(** The member [code] of the body of the [error] listener, present when the
    error carries a code. *)
Definition code_member (code : option string) : list (string * value) :=
  match code with
  | Some c => [("code", VStr c)]
  | None => []
  end.

(** What one item does to the object under construction, as the callback
    does it on a list of properties and as a finite map sees it. *)
Definition assign (values : list (string * value)) (item : value) : list (string * value) :=
  match Spec.entry item with
  | Some (k, v) => Set_ values k v
  | None => values
  end.

Definition write (values : gmap string value) (item : value) : gmap string value :=
  match Spec.entry item with
  | Some (k, v) => <[k := v]> values
  | None => values
  end.

(** The years an item list writes to, one key per selected item, in order. *)
Definition written_keys (items : list value) : list string :=
  omap (fun item => fst <$> Spec.entry item) items.

(** Property order: [k1] may stand before [k2] when both are array indices
    in non-decreasing order, or when [k2] is not an array index and [k1] is
    one or is none either. *)
Definition before (k1 k2 : string) : bool :=
  match array_index k1, array_index k2 with
  | Some i, Some j => i <=? j
  | Some _, None => true
  | None, Some _ => false
  | None, None => true
  end.

(** Every key may stand before all the keys after it. *)
Fixpoint ascending (keys : list string) : bool :=
  match keys with
  | [] => true
  | k :: rest => forallb (before k) rest && ascending rest
  end.

(** An upstream answer with status 503, one whose body is not JSON, and two
    answers with a body that decodes, in one chunk and in three. *)
Definition unavailable : WorldBank.IncomingMessage :=
  {| WorldBank.res_statusCode := 503; WorldBank.statusMessage := "Service Unavailable";
     WorldBank.chunks := ["<html>"; "busy"; "</html>"];
     WorldBank.decoded := inl (Error "Unexpected token < in JSON at position 0") |}.

Definition not_json : WorldBank.IncomingMessage :=
  {| WorldBank.res_statusCode := 200; WorldBank.statusMessage := "OK";
     WorldBank.chunks := ["<html>"];
     WorldBank.decoded := inl (Error "Unexpected token < in JSON at position 0") |}.

Definition in_one_chunk : WorldBank.IncomingMessage :=
  {| WorldBank.res_statusCode := 200; WorldBank.statusMessage := "OK";
     WorldBank.chunks := ["[{},null]"];
     WorldBank.decoded := inr (VArr [VObj []; VNull]) |}.

Definition in_three_chunks : WorldBank.IncomingMessage :=
  {| WorldBank.res_statusCode := 200; WorldBank.statusMessage := "OK";
     WorldBank.chunks := ["[{"; "},nu"; "ll]"];
     WorldBank.decoded := inr (VArr [VObj []; VNull]) |}.

(** An answer of the Fund API that is OK. *)
Definition found : Imf.Response :=
  {| Imf.status := 200; Imf.statusText := "OK";
     Imf.text := inr "{}";
     Imf.json := inr (VObj [("values", VObj [])]) |}.

(** Observations of two years, in the order the upstream sends them (newest
    first), and a later correction of the older year. *)
Definition newest_first : list value :=
  [ VObj [("date", VStr "2022"); ("value", VNum 3)];
    VObj [("date", VStr "2020"); ("value", VNum 5.1)] ].

Definition correction : value := VObj [("date", VStr "2020"); ("value", VNum 7)].

End Paths.


(* ===================================================================== *)
(** * Part 6: properties                                                  *)
(* ===================================================================== *)

Import WorldBank Spec Paths.

(** Case analysis along the three checks both handlers start with: the
    OPTIONS test, the GET test and the validation of the parameters. *)
Ltac by_checks ev :=
  destruct (String.eqb (httpMethod ev) "OPTIONS");
  [| destruct (negb (String.eqb (httpMethod ev) "GET"));
     [| match goal with |- context [if ?c then _ else _] => destruct c end ] ].

(** The entries of the two tables, one case each. *)
Ltac each_entry H :=
  apply elem_of_list_to_map_2 in H;
  repeat (apply elem_of_cons in H as [H | H]; [injection H as -> -> |]);
  try (apply elem_of_nil in H; contradiction).

(** Facts about a promise that is settled and a request that is destroyed. *)
Create HintDb flight.

(** ** Method and parameter checks *)

Section Preamble.

Variable ev : event.

Lemma imf_options :
  httpMethod ev = "OPTIONS" ->
  Imf.handler ev =
  Imf.Return {| statusCode := 200; headers := cors_headers; body := Some EmptyString |}.
Proof. intros H. unfold Imf.handler. rewrite H. reflexivity. Qed.

Lemma wb_options :
  httpMethod ev = "OPTIONS" ->
  WorldBank.handler ev =
  WorldBank.Return {| statusCode := 200; headers := cors_headers; body := Some EmptyString |}.
Proof. intros H. unfold WorldBank.handler. rewrite H. reflexivity. Qed.

Lemma imf_other_method :
  httpMethod ev <> "OPTIONS" -> httpMethod ev <> "GET" ->
  Imf.handler ev =
  Imf.Return {| statusCode := 405; headers := cors_headers;
                body := JSON_stringify method_not_allowed |}.
Proof.
  intros Ho Hg. unfold Imf.handler.
  apply String.eqb_neq in Ho, Hg. rewrite Ho, Hg. reflexivity.
Qed.

Lemma wb_other_method :
  httpMethod ev <> "OPTIONS" -> httpMethod ev <> "GET" ->
  WorldBank.handler ev =
  WorldBank.Return {| statusCode := 405; headers := cors_headers;
                      body := JSON_stringify method_not_allowed |}.
Proof.
  intros Ho Hg. unfold WorldBank.handler.
  apply String.eqb_neq in Ho, Hg. rewrite Ho, Hg. reflexivity.
Qed.

Lemma missing_is_falsy p : missing_or_empty ev p -> truthy (parameters ev !! p) = false.
Proof. intros [H | H]; rewrite H; reflexivity. Qed.

Lemma missing_rejected p :
  In p required -> missing_or_empty ev p -> rejected ev = true.
Proof.
  intros Hin Hm. apply missing_is_falsy in Hm. unfold rejected.
  simpl in Hin.
  destruct Hin as [<- | [<- | [<- | [<- | []]]]]; rewrite Hm; simpl;
    rewrite ?orb_true_r; reflexivity.
Qed.

Lemma imf_rejects :
  httpMethod ev = "GET" -> rejected ev = true ->
  Imf.handler ev =
  Imf.Return {| statusCode := 400; headers := cors_headers;
                body := JSON_stringify missing_parameters |}.
Proof.
  intros Hg Hr. unfold Imf.handler. rewrite Hg. simpl.
  unfold rejected in Hr. simpl in Hr. rewrite Hr. reflexivity.
Qed.

Lemma wb_rejects :
  httpMethod ev = "GET" -> rejected ev = true ->
  WorldBank.handler ev =
  WorldBank.Return {| statusCode := 400; headers := cors_headers;
                      body := JSON_stringify missing_parameters |}.
Proof.
  intros Hg Hr. unfold WorldBank.handler. rewrite Hg. simpl.
  unfold rejected in Hr. simpl in Hr. rewrite Hr. reflexivity.
Qed.

Lemma no_parameters_rejected : queryStringParameters ev = None -> rejected ev = true.
Proof. intros H. unfold rejected, parameters. rewrite H. reflexivity. Qed.

End Preamble.

Lemma method_not_allowed_text :
  JSON_stringify method_not_allowed = Some (error_document "Method not allowed").
Proof. reflexivity. Qed.

Lemma missing_parameters_text :
  JSON_stringify missing_parameters =
  Some (error_document "Missing required parameters: indicator, country, startYear, endYear").
Proof. reflexivity. Qed.

(** A run that returns at once makes no outbound call. *)
Lemma imf_return_no_call ev r : Imf.handler ev = Imf.Return r -> Imf.calls ev = [].
Proof. intros H. unfold Imf.calls. rewrite H. reflexivity. Qed.

Lemma wb_return_settled ev r signals :
  WorldBank.handler ev = WorldBank.Return r ->
  settle ev signals = {| promise := Some r; requests := []; destroyed := false |}.
Proof. intros H. unfold settle. rewrite H. reflexivity. Qed.

Lemma answered_at_once_intro ev r :
  Imf.handler ev = Imf.Return r -> WorldBank.handler ev = WorldBank.Return r ->
  answered_at_once ev r.
Proof.
  intros Hi Hw. unfold answered_at_once.
  repeat split; eauto using imf_return_no_call, wb_return_settled.
Qed.

(** C7. A request whose method is OPTIONS gets status 200 with the empty
    body from both handlers, whatever its query parameters are, and no
    upstream call is made. *)
Theorem options_preflight (ev : event) :
  httpMethod ev = "OPTIONS" ->
  answered_at_once ev
    {| statusCode := 200; headers := cors_headers; body := Some EmptyString |}.
Proof.
  intros H. apply answered_at_once_intro; [apply imf_options | apply wb_options]; exact H.
Qed.

Lemma options_preflight_witness :
  answered_at_once {| httpMethod := "OPTIONS"; queryStringParameters := None |}
    {| statusCode := 200; headers := cors_headers; body := Some EmptyString |}.
Proof. apply options_preflight. reflexivity. Defined.

(** C8. A request whose method is neither GET nor OPTIONS gets status 405
    from both handlers, with a body that is the JSON object whose one member,
    [error], is the text [Method not allowed], and no upstream call is
    made. *)
Theorem other_methods_not_allowed (ev : event) :
  httpMethod ev <> "GET" -> httpMethod ev <> "OPTIONS" ->
  answered_at_once ev
    {| statusCode := 405; headers := cors_headers;
       body := Some (error_document "Method not allowed") |}.
Proof.
  intros Hg Ho. rewrite <- method_not_allowed_text.
  apply answered_at_once_intro; [apply imf_other_method | apply wb_other_method]; assumption.
Qed.

Lemma other_methods_not_allowed_witness :
  answered_at_once {| httpMethod := "POST"; queryStringParameters := None |}
    {| statusCode := 405; headers := cors_headers;
       body := Some (error_document "Method not allowed") |}.
Proof. apply other_methods_not_allowed; discriminate. Defined.

(** C3. A GET request in which one of the four parameters indicator,
    country, startYear, endYear is missing or empty gets status 400 from both
    handlers, with the same body whichever parameter it is (the JSON object
    whose one member, [error], lists the four required parameters), and no
    upstream call is made. *)
Theorem missing_parameter_rejected (ev : event) (p : string) :
  httpMethod ev = "GET" -> In p required -> missing_or_empty ev p ->
  answered_at_once ev
    {| statusCode := 400; headers := cors_headers;
       body := Some (error_document
                 "Missing required parameters: indicator, country, startYear, endYear") |}.
Proof.
  intros Hg Hin Hm. rewrite <- missing_parameters_text.
  pose proof (missing_rejected ev p Hin Hm) as Hr.
  apply answered_at_once_intro; [apply imf_rejects | apply wb_rejects]; assumption.
Qed.

(** C10. A GET request whose [queryStringParameters] is absent is treated as
    one with no parameter: both handlers answer 400, and nothing throws. *)
Theorem absent_query_rejected (ev : event) :
  httpMethod ev = "GET" -> queryStringParameters ev = None ->
  answered_at_once ev
    {| statusCode := 400; headers := cors_headers;
       body := Some (error_document
                 "Missing required parameters: indicator, country, startYear, endYear") |}.
Proof.
  intros Hg Hq. rewrite <- missing_parameters_text.
  pose proof (no_parameters_rejected ev Hq) as Hr.
  apply answered_at_once_intro; [apply imf_rejects | apply wb_rejects]; assumption.
Qed.

Lemma absent_query_rejected_witness :
  answered_at_once {| httpMethod := "GET"; queryStringParameters := None |}
    {| statusCode := 400; headers := cors_headers;
       body := Some (error_document
                 "Missing required parameters: indicator, country, startYear, endYear") |}.
Proof. apply absent_query_rejected; reflexivity. Defined.

Lemma missing_parameter_rejected_witness :
  answered_at_once
    {| httpMethod := "GET";
       queryStringParameters :=
         Some (list_to_map [("indicator", "LUR"); ("country", "KR");
                            ("startYear", "2000"); ("endYear", EmptyString)]) |}
    {| statusCode := 400; headers := cors_headers;
       body := Some (error_document
                 "Missing required parameters: indicator, country, startYear, endYear") |}.
Proof.
  apply (missing_parameter_rejected _ "endYear").
  - reflexivity.
  - simpl. tauto.
  - right. vm_compute. reflexivity.
Defined.

(** ** The response headers *)

Lemma imf_catch_headers (r : result envelope) :
  (forall e, r = inr e -> headers e = cors_headers) ->
  headers (Imf.catch r) = cors_headers.
Proof. intros H. destruct r as [error | e]; simpl; [reflexivity | auto]. Qed.

Lemma imf_after_fetch_headers settled e :
  Imf.after_fetch settled = inr e -> headers e = cors_headers.
Proof.
  unfold Imf.after_fetch. destruct settled as [err | response]; simpl; [discriminate |].
  destruct (Imf.ok response); simpl.
  - destruct (Imf.json response) as [err | data]; simpl; [discriminate |].
    destruct (JSON_stringify data); simpl; [| discriminate].
    intros [= <-]. reflexivity.
  - destruct (Imf.text response); simpl; discriminate.
Qed.

Lemma imf_respond_headers ev settled :
  headers (Imf.respond ev settled) = cors_headers.
Proof.
  unfold Imf.respond, Imf.handler.
  by_checks ev; try reflexivity.
  apply imf_catch_headers. intros e. apply imf_after_fetch_headers.
Qed.

Lemma end_try_headers res e : end_try res = inr e -> headers e = cors_headers.
Proof.
  unfold end_try. destruct (negb (res_statusCode res =? 200)%N).
  - intros [= <-]. reflexivity.
  - destruct (decoded res) as [err | jsonData]; simpl; [discriminate |].
    destruct (normalize jsonData); simpl; [discriminate |].
    intros [= <-]. reflexivity.
Qed.

Lemma on_end_headers res : headers (on_end res) = cors_headers.
Proof.
  unfold on_end. destruct (end_try res) eqn:E; [reflexivity |].
  eapply end_try_headers, E.
Qed.

Lemma resolve_cors r st :
  headers r = cors_headers -> cors_settled st -> cors_settled (resolve r st).
Proof.
  intros Hr Hst r'. unfold resolve.
  destruct (promise st) eqn:E; simpl.
  - intros H. apply Hst. congruence.
  - intros [= <-]. exact Hr.
Qed.

Lemma deliver_cors st s : cors_settled st -> cors_settled (deliver st s).
Proof.
  intros H. destruct s; simpl; apply resolve_cors; try reflexivity; try exact H.
  apply on_end_headers.
Qed.

Lemma fold_deliver_cors signals st :
  cors_settled st -> cors_settled (fold_left deliver signals st).
Proof.
  revert st. induction signals as [| s rest IH]; intros st H; simpl; [exact H |].
  apply IH, deliver_cors, H.
Qed.

Lemma wb_handler_headers ev r :
  WorldBank.handler ev = WorldBank.Return r -> headers r = cors_headers.
Proof.
  unfold WorldBank.handler.
  by_checks ev; try discriminate; intros [= <-]; reflexivity.
Qed.

Lemma settle_cors ev signals : cors_settled (settle ev signals).
Proof.
  unfold settle. destruct (WorldBank.handler ev) eqn:E.
  - intros r' [= <-]. eapply wb_handler_headers, E.
  - apply fold_deliver_cors. intros r' H. discriminate H.
Qed.

(** C9. Every envelope either handler produces carries the same four
    headers: the envelope the Fund handler returns, whatever [fetch] settles
    with, and the envelope the Development Bank handler's promise holds,
    whatever signals its request receives. *)
Theorem every_envelope_has_cors_headers
    (ev : event) (settled : result Imf.Response) (signals : list signal) (r : envelope) :
  r = Imf.respond ev settled \/ promise (settle ev signals) = Some r ->
  headers r =
  [ ("Access-Control-Allow-Origin", "*");
    ("Access-Control-Allow-Headers", "Content-Type");
    ("Access-Control-Allow-Methods", "GET, OPTIONS");
    ("Content-Type", "application/json") ].
Proof.
  intros [-> | H].
  - apply imf_respond_headers.
  - exact (settle_cors ev signals r H).
Qed.

Lemma every_envelope_has_cors_headers_witness :
  headers (Imf.respond sample_event
             (inr {| Imf.status := 200; Imf.statusText := "OK";
                     Imf.text := inr "{}"; Imf.json := inr (VObj []) |})) =
  [ ("Access-Control-Allow-Origin", "*");
    ("Access-Control-Allow-Headers", "Content-Type");
    ("Access-Control-Allow-Methods", "GET, OPTIONS");
    ("Content-Type", "application/json") ].
Proof.
  eapply (every_envelope_has_cors_headers sample_event _ []).
  left. reflexivity.
Defined.

(** ** The request in flight *)

Lemma resolve_settled r st r0 :
  promise st = Some r0 -> promise (resolve r st) = Some r0.
Proof. intros H. unfold resolve. rewrite H. exact H. Qed.

Lemma resolve_keeps_requests r st : requests (resolve r st) = requests st.
Proof. unfold resolve. destruct (promise st); reflexivity. Qed.

Lemma resolve_keeps_destroyed r st : destroyed (resolve r st) = destroyed st.
Proof. unfold resolve. destruct (promise st); reflexivity. Qed.

(** A settled promise keeps its value. *)
Lemma deliver_settled st s r0 :
  promise st = Some r0 -> promise (deliver st s) = Some r0.
Proof. intros H. destruct s; simpl; apply resolve_settled; exact H. Qed.

#[local] Hint Resolve resolve_settled deliver_settled : flight.

Lemma fold_deliver_settled signals st r0 :
  promise st = Some r0 -> promise (fold_left deliver signals st) = Some r0.
Proof.
  revert st. induction signals as [| s rest IH]; intros st H; simpl; auto with flight.
Qed.

(** No listener sends a request. *)
Lemma deliver_keeps_requests st s : requests (deliver st s) = requests st.
Proof. destruct s; simpl; rewrite resolve_keeps_requests; reflexivity. Qed.

Lemma fold_deliver_keeps_requests signals st :
  requests (fold_left deliver signals st) = requests st.
Proof.
  revert st. induction signals as [| s rest IH]; intros st; simpl; [reflexivity |].
  rewrite IH. apply deliver_keeps_requests.
Qed.

(** A destroyed request stays destroyed. *)
Lemma deliver_keeps_destroyed st s :
  destroyed st = true -> destroyed (deliver st s) = true.
Proof.
  intros H. destruct s; simpl; rewrite resolve_keeps_destroyed; simpl; auto.
Qed.

#[local] Hint Resolve deliver_keeps_destroyed : flight.

Lemma fold_deliver_keeps_destroyed signals st :
  destroyed st = true -> destroyed (fold_left deliver signals st) = true.
Proof.
  revert st. induction signals as [| s rest IH]; intros st H; simpl; auto with flight.
Qed.

(** The first signal of a request in flight settles the promise. *)
Lemma first_signal_settles ev o s rest :
  WorldBank.handler ev = Request o ->
  promise (settle ev (s :: rest)) = promise (deliver (in_flight o) s).
Proof.
  intros H. unfold settle. rewrite H. simpl.
  destruct (promise (deliver (in_flight o) s)) eqn:E.
  - apply fold_deliver_settled, E.
  - destruct s; discriminate E.
Qed.

Lemma request_uses_options ev o : WorldBank.handler ev = Request o -> exists url, o = options url.
Proof.
  unfold WorldBank.handler.
  by_checks ev; try discriminate.
  intros [= <-]. eauto.
Qed.

(** C6. The one request of the Development Bank handler is sent with a
    timeout of 30000 ms.  When the timeout fires on the request in flight, the
    request is destroyed, no other request is sent, and the promise holds one
    500 envelope, whose message names the 30 second bound, whatever is
    delivered afterwards. *)
Theorem timeout_aborts_request (ev : event) (o : request_options) (later : list signal) :
  WorldBank.handler ev = Request o ->
  timeout o = 30000 /\
  promise (settle ev (Timeout :: later)) =
    Some {| statusCode := 500; headers := cors_headers;
            body := JSON_stringify
                      (VObj [("error", VStr "World Bank API request timeout");
                             ("message", VStr "Request took longer than 30 seconds")]) |} /\
  destroyed (settle ev (Timeout :: later)) = true /\
  requests (settle ev (Timeout :: later)) = [o].
Proof.
  intros H. split; [| split; [| split]].
  - destruct (request_uses_options ev o H) as [url ->]. reflexivity.
  - rewrite (first_signal_settles ev o _ _ H). reflexivity.
  - unfold settle. rewrite H. simpl. apply fold_deliver_keeps_destroyed. reflexivity.
  - unfold settle. rewrite H. rewrite fold_deliver_keeps_requests. reflexivity.
Qed.

Lemma timeout_aborts_request_witness :
  timeout (options (wbApiUrl (Entry "KOR") (Entry "SL.UEM.TOTL.ZS") "2000" "2001")) = 30000 /\
  promise (settle sample_event [Timeout; Error_ "socket hang up" (Some "ECONNRESET")]) =
    Some {| statusCode := 500; headers := cors_headers;
            body := JSON_stringify
                      (VObj [("error", VStr "World Bank API request timeout");
                             ("message", VStr "Request took longer than 30 seconds")]) |} /\
  destroyed (settle sample_event [Timeout; Error_ "socket hang up" (Some "ECONNRESET")]) = true /\
  requests (settle sample_event [Timeout; Error_ "socket hang up" (Some "ECONNRESET")]) =
    [options (wbApiUrl (Entry "KOR") (Entry "SL.UEM.TOTL.ZS") "2000" "2001")].
Proof.
  apply (timeout_aborts_request sample_event). vm_compute. reflexivity.
Defined.

(** ** A payload of the wrong shape *)

Lemma ill_shaped_throws jsonData :
  well_shaped jsonData = false ->
  normalize jsonData = inl (Error "Invalid World Bank API response format").
Proof.
  destruct jsonData as [| | | | | items |]; try reflexivity.
  destruct items as [| metadata [| second rest]]; try reflexivity.
  discriminate.
Qed.

(** C2. When the upstream answers 200 and its body decodes to a value that
    is not an array, or to an array of fewer than two items, the Development
    Bank handler answers 500, not 200: the body has the members [error] and
    [message], the message being the one of the format check, and the first
    500 characters of the raw text. *)
Theorem malformed_payload_reported
    (ev : event) (o : request_options) (res : IncomingMessage) (jsonData : value)
    (later : list signal) :
  WorldBank.handler ev = Request o ->
  res_statusCode res = 200%N ->
  decoded res = inr jsonData ->
  well_shaped jsonData = false ->
  promise (settle ev (End_ res :: later)) =
    Some {| statusCode := 500; headers := cors_headers;
            body := JSON_stringify
                      (VObj [("error", VStr "Failed to parse World Bank API response");
                             ("message", VStr "Invalid World Bank API response format");
                             ("rawData", VStr (substring 500 (data res)))]) |}.
Proof.
  intros H Hs Hd Hw.
  rewrite (first_signal_settles ev o _ _ H). simpl. f_equal.
  unfold on_end, end_try. rewrite Hs, Hd. simpl.
  rewrite (ill_shaped_throws _ Hw). reflexivity.
Qed.

Lemma malformed_payload_reported_witness :
  promise (settle sample_event
             [End_ {| res_statusCode := 200; statusMessage := "OK";
                      chunks := ["[{"; "}]"];
                      decoded := inr (VArr [VObj []]) |}]) =
    Some {| statusCode := 500; headers := cors_headers;
            body := JSON_stringify
                      (VObj [("error", VStr "Failed to parse World Bank API response");
                             ("message", VStr "Invalid World Bank API response format");
                             ("rawData", VStr "[{}]")]) |}.
Proof.
  apply (malformed_payload_reported sample_event
           (options (wbApiUrl (Entry "KOR") (Entry "SL.UEM.TOTL.ZS") "2000" "2001"))
           {| res_statusCode := 200; statusMessage := "OK"; chunks := ["[{"; "}]"];
              decoded := inr (VArr [VObj []]) |}
           (VArr [VObj []]) []);
    vm_compute; reflexivity.
Defined.

(** ** A failed upstream call of the Fund handler *)

Lemma substring_length n s : (String.length (substring n s) <= n)%nat.
Proof.
  unfold substring. revert s.
  induction n as [| n IH]; intros [| c s]; simpl; try lia.
  specialize (IH s). lia.
Qed.

Lemma substring_prefix n s : String.prefix (substring n s) s = true.
Proof.
  unfold substring. revert s.
  induction n as [| n IH]; intros [| c s]; simpl; try reflexivity.
  destruct (ascii_dec c c) as [_ | Hne]; [apply IH | contradiction].
Qed.

Lemma imf_respond_after_fetch ev url settled :
  Imf.calls ev = [url] ->
  Imf.respond ev settled = Imf.catch (Imf.after_fetch settled).
Proof.
  unfold Imf.calls, Imf.respond, Imf.handler.
  by_checks ev; try discriminate.
  reflexivity.
Qed.

(** C5 (as amended). When the one [fetch] of the Fund handler resolves with
    a status that is not OK, the handler answers 500 with the members [error]
    and [message].  When the upstream body is read, the message holds the
    upstream status, its status text, and the first characters of the body,
    at most 200 of them; when reading the body rejects, the message is the
    one of that rejection. *)
Theorem upstream_failure_reported (ev : event) (url : string) (response : Imf.Response) :
  Imf.calls ev = [url] ->
  Imf.ok response = false ->
  exists msg : string,
    Imf.respond ev (inr response) =
      {| statusCode := 500; headers := cors_headers;
         body := JSON_stringify
                   (VObj [("error", VStr "Failed to fetch data from IMF API");
                          ("message", VStr msg)]) |} /\
    (forall errorText : string,
       Imf.text response = inr errorText ->
       msg = "IMF API error: " ++ decimal (Imf.status response) ++ " "
             ++ Imf.statusText response ++ ". " ++ substring 200 errorText /\
       String.prefix (substring 200 errorText) errorText = true /\
       (String.length (substring 200 errorText) <= 200)%nat) /\
    (forall e : exn, Imf.text response = inl e -> msg = message e).
Proof.
  intros H Hok. rewrite (imf_respond_after_fetch _ _ _ H).
  unfold Imf.after_fetch. simpl. rewrite Hok. simpl.
  destruct (Imf.text response) as [err | errorText]; simpl.
  - exists (message err). split; [reflexivity |].
    split; [discriminate | intros e [= <-]; reflexivity].
  - eexists. split; [reflexivity |]. split; [| discriminate].
    intros t [= <-].
    split; [reflexivity |]. split; [apply substring_prefix | apply substring_length].
Qed.

Lemma upstream_failure_reported_witness :
  exists msg : string,
    Imf.respond sample_event (inr not_found) =
      {| statusCode := 500; headers := cors_headers;
         body := JSON_stringify
                   (VObj [("error", VStr "Failed to fetch data from IMF API");
                          ("message", VStr msg)]) |} /\
    (forall errorText : string,
       Imf.text not_found = inr errorText ->
       msg = "IMF API error: " ++ decimal (Imf.status not_found) ++ " "
             ++ Imf.statusText not_found ++ ". " ++ substring 200 errorText /\
       String.prefix (substring 200 errorText) errorText = true /\
       (String.length (substring 200 errorText) <= 200)%nat) /\
    (forall e : exn, Imf.text not_found = inl e -> msg = message e).
Proof.
  apply (upstream_failure_reported sample_event
           (Imf.imfApiUrl "LUR" "KR" "2000" "2001") not_found);
    vm_compute; reflexivity.
Defined.

(** C5 (as stated) fails on a response that is not OK and whose body cannot
    be read: the handler answers 500 with the message of the rejection,
    which holds neither the upstream status nor any part of a body. *)
Lemma unread_body_hides_status :
  Imf.calls sample_event = [Imf.imfApiUrl "LUR" "KR" "2000" "2001"] /\
  Imf.ok cut_off = false /\
  Imf.respond sample_event (inr cut_off) =
    {| statusCode := 500; headers := cors_headers;
       body := JSON_stringify
                 (VObj [("error", VStr "Failed to fetch data from IMF API");
                        ("message", VStr "terminated")]) |} /\
  String.index 0 (decimal (Imf.status cut_off)) "terminated" = None.
Proof. repeat split; vm_compute; reflexivity. Qed.

(** ** Code translation *)

Lemma translate_entry table code s :
  table !! code = Some s -> s <> EmptyString -> translate table code = Entry s.
Proof.
  intros H Hs. unfold translate, lookup. rewrite H.
  apply String.eqb_neq in Hs. rewrite Hs. reflexivity.
Qed.

(** A code with no entry passes through, provided it is not the name of a
    property of [Object.prototype]. *)
Lemma translate_unmapped table code :
  table !! code = None -> Object_prototype code = None ->
  translate table code = Entry code.
Proof. intros H Hp. unfold translate, lookup. rewrite H, Hp. reflexivity. Qed.

Lemma korea_translated : wbCountry "KR" = Entry "KOR".
Proof. vm_compute. reflexivity. Qed.

Lemma unknown_country_passes_through : wbCountry "ZZ" = Entry "ZZ".
Proof. vm_compute. reflexivity. Qed.

(** The translated codes are the ones in the URL of the request. *)
Lemma request_url ev o :
  WorldBank.handler ev = Request o ->
  exists indicator country startYear endYear : string,
    parameters ev !! "indicator" = Some indicator /\
    parameters ev !! "country" = Some country /\
    parameters ev !! "startYear" = Some startYear /\
    parameters ev !! "endYear" = Some endYear /\
    href o = wbApiUrl (wbCountry country) (wbIndicator indicator) startYear endYear.
Proof.
  unfold WorldBank.handler.
  destruct (String.eqb (httpMethod ev) "OPTIONS"); [discriminate |].
  destruct (negb (String.eqb (httpMethod ev) "GET")); [discriminate |].
  destruct (parameters ev !! "indicator") as [indicator |]; [| discriminate].
  destruct (parameters ev !! "country") as [country |];
    [| simpl; rewrite ?orb_true_r; discriminate].
  destruct (parameters ev !! "startYear") as [startYear |];
    [| simpl; rewrite ?orb_true_r; discriminate].
  destruct (parameters ev !! "endYear") as [endYear |];
    [| simpl; rewrite ?orb_true_r; discriminate].
  match goal with |- context [if ?c then _ else _] => destruct c end; [discriminate |].
  intros [= <-]. exists indicator, country, startYear, endYear. repeat split; reflexivity.
Qed.

(** C4. The country code [constructor] has no entry in [countryMap], yet it
    is not passed through: the lookup finds the function [Object] that the
    table inherits from [Object.prototype], and the URL of the request holds
    the text of that function in place of the code. *)
Theorem inherited_name_translated :
  countryMap !! "constructor" = None /\
  wbCountry "constructor" = Builtin "Object" /\
  WorldBank.handler constructor_event =
    Request (options
      ("https://api.worldbank.org/v2/country/function Object() { [native code] }"
       ++ "/indicator/SL.UEM.TOTL.ZS?format=json&date=2000:2001")).
Proof. vm_compute. repeat split; reflexivity. Qed.

(** ** Normalization *)

(** The object under construction, read as a finite map. *)
Lemma own_lookup (props : list (string * value)) (k : string) :
  (list_to_map props : gmap string value) !! k = own props k.
Proof.
  induction props as [| [k' v'] rest IH]; simpl; [reflexivity |].
  destruct (String.eqb k' k) eqn:E.
  - apply String.eqb_eq in E. subst k'. apply lookup_insert_eq.
  - apply String.eqb_neq in E. rewrite lookup_insert_ne by exact E. exact IH.
Qed.

Lemma eqb_trans_false (k0 k k' : string) :
  String.eqb k0 k = false -> String.eqb k' k = true -> String.eqb k0 k' = false.
Proof.
  intros Hne He. apply String.eqb_eq in He. subst k'. exact Hne.
Qed.

Lemma own_cons k0 v0 rest k k' (r : option value) :
  String.eqb k0 k = false ->
  (if String.eqb k0 k' then Some v0 else if String.eqb k' k then r else own rest k') =
  (if String.eqb k' k then r else if String.eqb k0 k' then Some v0 else own rest k').
Proof.
  intros Hne. destruct (String.eqb k' k) eqn:E; [| reflexivity].
  rewrite (eqb_trans_false _ _ _ Hne E). reflexivity.
Qed.

Lemma own_replace props k v k' :
  own (replace k v props) k' =
  if String.eqb k' k then match own props k with Some _ => Some v | None => None end
  else own props k'.
Proof.
  induction props as [| [k0 v0] rest IH]; simpl.
  - destruct (String.eqb k' k); reflexivity.
  - destruct (String.eqb k0 k) eqn:E; simpl.
    + apply String.eqb_eq in E. subst k0.
      rewrite (String.eqb_sym k' k). destruct (String.eqb k k'); reflexivity.
    + rewrite IH. apply own_cons, E.
Qed.

Lemma own_insert_index i props k v k' :
  own props k = None ->
  own (insert_index i k v props) k' = if String.eqb k' k then Some v else own props k'.
Proof.
  assert (Hhead : forall l, own ((k, v) :: l) k' = if String.eqb k' k then Some v else own l k').
  { intros l. simpl. rewrite (String.eqb_sym k k'). reflexivity. }
  induction props as [| [k0 v0] rest IH]; intros Hk.
  - apply Hhead.
  - simpl in Hk. destruct (String.eqb k0 k) eqn:E; [discriminate |].
    simpl insert_index.
    destruct (array_index k0) as [j |]; [| apply Hhead].
    destruct (j <? i); [| apply Hhead].
    simpl. rewrite (IH Hk). apply own_cons, E.
Qed.

Lemma own_snoc props k v k' :
  own props k = None ->
  own (props ++ [(k, v)]) k' = if String.eqb k' k then Some v else own props k'.
Proof.
  induction props as [| [k0 v0] rest IH]; intros Hk; simpl.
  - rewrite (String.eqb_sym k k'). reflexivity.
  - simpl in Hk. destruct (String.eqb k0 k) eqn:E; [discriminate |].
    rewrite (IH Hk). apply own_cons, E.
Qed.

(** Reading a property after an assignment. *)
Lemma own_Set_ props k v k' :
  own (Set_ props k v) k' = if String.eqb k' k then Some v else own props k'.
Proof.
  unfold Set_. destruct (own props k) eqn:E.
  - rewrite own_replace, E. reflexivity.
  - destruct (array_index k); [apply own_insert_index | apply own_snoc]; exact E.
Qed.

(** An assignment is an insertion into the map. *)
Lemma list_to_map_Set_ props k v :
  (list_to_map (Set_ props k v) : gmap string value) = <[k := v]> (list_to_map props).
Proof.
  apply map_eq. intros k'. rewrite own_lookup, own_Set_.
  destruct (String.eqb k' k) eqn:E.
  - apply String.eqb_eq in E. subst k'. rewrite lookup_insert_eq. reflexivity.
  - apply String.eqb_neq in E. rewrite lookup_insert_ne by congruence.
    symmetry. apply own_lookup.
Qed.

Lemma own_None_keys props k : own props k = None -> k ∉ props.*1.
Proof.
  induction props as [| [k0 v0] rest IH]; simpl; intros H.
  - apply not_elem_of_nil.
  - destruct (String.eqb k0 k) eqn:E; [discriminate |].
    apply String.eqb_neq in E.
    apply not_elem_of_cons. split; [congruence | auto].
Qed.

Lemma replace_keys k v props : (replace k v props).*1 = props.*1.
Proof.
  induction props as [| [k0 v0] rest IH]; simpl; [reflexivity |].
  destruct (String.eqb k0 k); simpl; [reflexivity | f_equal; exact IH].
Qed.

Lemma insert_index_keys i k v props : (insert_index i k v props).*1 ≡ₚ k :: props.*1.
Proof.
  induction props as [| [k0 v0] rest IH]; simpl; [reflexivity |].
  destruct (array_index k0) as [j |]; [| reflexivity].
  destruct (j <? i); [| reflexivity].
  simpl. rewrite IH. apply Permutation_swap.
Qed.

(** An assignment keeps the property names distinct. *)
Lemma Set_keys_NoDup props k v : NoDup props.*1 -> NoDup (Set_ props k v).*1.
Proof.
  intros H. unfold Set_. destruct (own props k) eqn:E.
  - rewrite replace_keys. exact H.
  - apply own_None_keys in E. destruct (array_index k).
    + rewrite insert_index_keys. apply NoDup_cons. split; assumption.
    + rewrite fmap_app. simpl. apply NoDup_app. split; [exact H |].
      split; [| apply NoDup_singleton].
      intros x Hx Hx'. apply list_elem_of_singleton in Hx'. subst. contradiction.
Qed.

Lemma Get_readable item p :
  item <> VUndefined -> item <> VNull -> Get item p = inr (field item p).
Proof. intros Hu Hn. destruct item; try reflexivity; contradiction. Qed.

(** What the callback does with an item it can process. *)
Lemma record_readable values item :
  readable item = true ->
  record values item =
  inr (match entry item with
       | Some (k, v) => Set_ values k v
       | None => values
       end).
Proof.
  intros Hr. unfold record, entry.
  assert (Hu : item <> VUndefined) by (intros ->; discriminate Hr).
  assert (Hn : item <> VNull) by (intros ->; discriminate Hr).
  rewrite !(Get_readable item _ Hu Hn). simpl.
  assert (Hr' : (if ToBoolean (field item "date") && negb (is_null (field item "value"))
                 then match ToString (field item "date") with
                      | inr _ => true
                      | inl _ => false
                      end
                 else true) = true).
  { destruct item; try contradiction; exact Hr. }
  clear Hr. destruct (ToBoolean (field item "date")); simpl in *; [| reflexivity].
  unfold year_key, parseInt.
  destruct (field item "value"); simpl in *; try reflexivity;
    destruct (ToString (field item "date")); simpl; try discriminate; reflexivity.
Qed.

(** The loop, on items it can process, as a fold. *)
Lemma forEach_readable items values :
  forallb readable items = true ->
  forEach items values =
  inr (fold_left (fun acc item =>
                    match entry item with
                    | Some (k, v) => Set_ acc k v
                    | None => acc
                    end)
                 items values).
Proof.
  revert values. induction items as [| item rest IH]; intros values H; simpl; [reflexivity |].
  simpl in H. apply andb_prop in H as [Hi Hrest].
  rewrite (record_readable _ _ Hi). simpl. apply IH, Hrest.
Qed.

Lemma fold_Set_NoDup items values :
  NoDup values.*1 ->
  NoDup (fold_left (fun acc item =>
                      match entry item with
                      | Some (k, v) => Set_ acc k v
                      | None => acc
                      end)
                   items values).*1.
Proof.
  revert values. induction items as [| item rest IH]; intros values H; simpl; [exact H |].
  apply IH. destruct (entry item) as [[k v] |]; [apply Set_keys_NoDup |]; exact H.
Qed.

Lemma fold_Set_map items values :
  (list_to_map
     (fold_left (fun acc item =>
                   match entry item with
                   | Some (k, v) => Set_ acc k v
                   | None => acc
                   end)
                items values) : gmap string value) =
  fold_left (fun acc item =>
               match entry item with
               | Some (k, v) => <[k := v]> acc
               | None => acc
               end)
            items (list_to_map values).
Proof.
  revert values. induction items as [| item rest IH]; intros values; simpl; [reflexivity |].
  rewrite IH. f_equal.
  destruct (entry item) as [[k v] |]; [apply list_to_map_Set_ | reflexivity].
Qed.

(** C1 (as amended). For a decoded payload that is an array of at least two
    items, whose second item is falsy or an array of items the callback can
    process, normalization returns an object [{values}] with distinct
    property names, and its properties are those of the series built from the
    items in order: an item with a truthy date and a value that is not null
    sets [values[parseInt(date)]], any other item is skipped, and a later
    item of a year overwrites an earlier one.  For the payload of the
    specification's example, the result is [{values: {2020: 5.1, 2022: 3}}]. *)
Theorem normalize_builds_series :
  (forall (metadata second : value) (rest items : list value),
     dataArray second = VArr items ->
     forallb readable items = true ->
     exists values : list (string * value),
       normalize (VArr (metadata :: second :: rest)) = inr (VObj [("values", VObj values)]) /\
       NoDup values.*1 /\
       list_to_map values = series items) /\
  normalize example_payload =
    inr (VObj [("values", VObj [("2020", VNum 5.1); ("2022", VNum 3)])]).
Proof.
  split; [| vm_compute; reflexivity].
  intros metadata second rest items Hd Hr.
  eexists. split; [| split].
  - simpl. rewrite Hd. rewrite (forEach_readable _ _ Hr). reflexivity.
  - apply fold_Set_NoDup. apply NoDup_nil_2.
  - rewrite fold_Set_map. reflexivity.
Qed.

Lemma normalize_builds_series_witness :
  exists values : list (string * value),
    normalize example_payload = inr (VObj [("values", VObj values)]) /\
    NoDup values.*1 /\
    list_to_map values =
      series [ VObj [("date", VStr "2020"); ("value", VNum 5.1)];
               VObj [("date", VStr "2021"); ("value", VNull)];
               VObj [("date", VStr "2022"); ("value", VNum 3.0)] ].
Proof.
  apply (proj1 normalize_builds_series (VObj [("page", VNum 1)]) _ []); reflexivity.
Defined.

(** C1 (as stated) fails on an observation whose date is the empty string:
    the date is not null and the value is not null, so the specification's
    rule records the value under the key [NaN]; the handler skips the
    observation, and the series it returns is empty. *)
Lemma undated_observation_skipped :
  normalize (VArr [VObj [("page", VNum 1)]; VArr [undated]]) =
    inr (VObj [("values", VObj [])]) /\
  claimed_series [undated] = {[ "NaN" := VNum 1 ]} /\
  claimed_series [undated] <> list_to_map [].
Proof.
  split; [| split]; [vm_compute; reflexivity .. |].
  intros H. apply (f_equal (fun m => m !! "NaN")) in H. vm_compute in H. discriminate H.
Qed.

(** The same for a date that is the number zero. *)
Lemma zero_dated_observation_skipped :
  normalize (VArr [VObj [("page", VNum 1)]; VArr [zero_dated]]) =
    inr (VObj [("values", VObj [])]) /\
  claimed_series [zero_dated] = {[ "0" := VNum 1 ]}.
Proof. split; vm_compute; reflexivity. Qed.

(** The second item of the payload is a list of items exactly when it is
    falsy, for the empty list, or an array. *)
Lemma dataArray_list second items :
  dataArray second = VArr items <->
  (ToBoolean second = false /\ items = []) \/ second = VArr items.
Proof.
  unfold dataArray. split.
  - destruct (ToBoolean second) eqn:E.
    + intros ->. right. reflexivity.
    + intros [= <-]. left. split; reflexivity.
  - intros [[-> ->] | ->]; reflexivity.
Qed.

(** An item the callback cannot process makes it throw. *)
Lemma record_unreadable values item :
  readable item = false -> exists e, record values item = inl e.
Proof.
  intros Hr. destruct item as [| | b | x | s | l | props];
    try discriminate Hr; try (eexists; reflexivity).
  unfold readable, field in Hr. unfold record. simpl.
  set (date := default VUndefined (own props "date")) in *.
  set (v := default VUndefined (own props "value")) in *.
  destruct (ToBoolean date); simpl in Hr |- *; [| discriminate Hr].
  unfold parseInt.
  destruct (ToString date) as [e | s]; destruct v; simpl in Hr |- *;
    try discriminate Hr; eexists; reflexivity.
Qed.

Lemma forEach_unreadable items values :
  forallb readable items = false -> exists e, forEach items values = inl e.
Proof.
  revert values. induction items as [| item rest IH]; intros values H; simpl in H;
    [discriminate |].
  destruct (readable item) eqn:E; simpl in H.
  - simpl. rewrite (record_readable _ _ E). simpl. apply IH, H.
  - destruct (record_unreadable values item E) as [e He].
    exists e. simpl. rewrite He. reflexivity.
Qed.

(** A [null] item makes the callback throw, and so does a second item that
    is truthy without being an array; the [end] listener reports either as a
    parse failure. *)
Lemma null_item_throws metadata items rest :
  exists e, normalize (VArr (metadata :: VArr (VNull :: items) :: rest)) = inl e.
Proof. eexists. reflexivity. Qed.

Lemma object_in_place_of_list_throws metadata props rest :
  exists e, normalize (VArr (metadata :: VObj props :: rest)) = inl e.
Proof. eexists. reflexivity. Qed.

(** A payload that normalizes is served with status 200. *)
Lemma normalized_payload_served res jsonData transformedData :
  res_statusCode res = 200%N -> decoded res = inr jsonData ->
  normalize jsonData = inr transformedData ->
  on_end res = {| statusCode := 200; headers := cors_headers;
                  body := JSON_stringify transformedData |}.
Proof.
  intros Hs Hd Hn. unfold on_end, end_try. rewrite Hs, Hd. simpl. rewrite Hn. reflexivity.
Qed.

Lemma example_payload_served res :
  res_statusCode res = 200%N -> decoded res = inr example_payload ->
  on_end res = {| statusCode := 200; headers := cors_headers; body := Some example_body |}.
Proof.
  intros Hs Hd. unfold on_end, end_try. rewrite Hs, Hd. vm_compute. reflexivity.
Qed.

Lemma thrown_normalization_reported res jsonData e :
  res_statusCode res = 200%N -> decoded res = inr jsonData -> normalize jsonData = inl e ->
  statusCode (on_end res) = 500%N.
Proof.
  intros Hs Hd Hn. unfold on_end, end_try. rewrite Hs, Hd. simpl. rewrite Hn. reflexivity.
Qed.

(** Where every date that is present is also truthy, the specification's rule
    and the handler's rule build the same series. *)
Lemma truthy_when_present (v : value) : ToBoolean v = true -> non_null v = true.
Proof. destruct v; simpl; congruence. Qed.

Lemma build_agrees (f g : value -> option (string * value)) (l : list value) :
  Forall (fun o => f o = g o) l -> build f l = build g l.
Proof.
  unfold build. generalize (∅ : gmap string value).
  induction l as [| o rest IH]; intros m H; simpl; [reflexivity |].
  inversion H as [| ? ? Ho Hrest]; subst. rewrite Ho. apply IH, Hrest.
Qed.

Lemma claimed_series_on_truthy_dates (observations : list value) :
  Forall (fun o => non_null (field o "date") = true -> ToBoolean (field o "date") = true)
         observations ->
  series observations = claimed_series observations.
Proof.
  intros H. apply build_agrees. eapply Forall_impl; [exact H |].
  intros o Ho. cbv beta in Ho. unfold entry, claimed_entry.
  destruct (non_null (field o "date")) eqn:E.
  - rewrite (Ho eq_refl). reflexivity.
  - destruct (ToBoolean (field o "date")) eqn:E'; [| reflexivity].
    apply truthy_when_present in E'. congruence.
Qed.

(* ===================================================================== *)
(** * Part 7: the remaining paths of the handlers                         *)
(* ===================================================================== *)

(** ** The listeners of the Development Bank request *)

(** X1. When the upstream answers with a status other than 200, the
    Development Bank handler answers 500 without decoding the body: the
    message is the status line, and [details] is the start of the raw text,
    at most 200 characters of it. *)
Theorem upstream_status_reported
    (ev : event) (o : request_options) (res : IncomingMessage) (later : list signal) :
  WorldBank.handler ev = Request o ->
  res_statusCode res <> 200%N ->
  promise (settle ev (End_ res :: later)) =
    Some {| statusCode := 500; headers := cors_headers;
            body := JSON_stringify
                      (VObj [("error", VStr "World Bank API error");
                             ("message", VStr ("HTTP " ++ decimal (res_statusCode res) ++ ": "
                                               ++ statusMessage res));
                             ("details", VStr (substring 200 (data res)))]) |} /\
  String.prefix (substring 200 (data res)) (data res) = true /\
  (String.length (substring 200 (data res)) <= 200)%nat.
Proof.
  intros H Hs. split; [| split; [apply substring_prefix | apply substring_length]].
  rewrite (first_signal_settles ev o _ _ H). simpl. f_equal.
  unfold on_end, end_try. apply N.eqb_neq in Hs. rewrite Hs. reflexivity.
Qed.

Lemma upstream_status_reported_witness :
  promise (settle sample_event [End_ unavailable]) =
    Some {| statusCode := 500; headers := cors_headers;
            body := JSON_stringify
                      (VObj [("error", VStr "World Bank API error");
                             ("message", VStr ("HTTP " ++ decimal (res_statusCode unavailable)
                                               ++ ": " ++ statusMessage unavailable));
                             ("details", VStr (substring 200 (data unavailable)))]) |} /\
  String.prefix (substring 200 (data unavailable)) (data unavailable) = true /\
  (String.length (substring 200 (data unavailable)) <= 200)%nat.
Proof.
  apply (upstream_status_reported sample_event
           (options (wbApiUrl (Entry "KOR") (Entry "SL.UEM.TOTL.ZS") "2000" "2001"))
           unavailable []).
  - vm_compute. reflexivity.
  - discriminate.
Defined.

(** X2. When the upstream answers 200 with a body that [JSON.parse] rejects,
    the handler answers 500: the message is the one of the exception thrown,
    and [rawData] is the start of the raw text, at most 500 characters. *)
Theorem undecodable_body_reported
    (ev : event) (o : request_options) (res : IncomingMessage) (e : exn)
    (later : list signal) :
  WorldBank.handler ev = Request o ->
  res_statusCode res = 200%N ->
  decoded res = inl e ->
  promise (settle ev (End_ res :: later)) =
    Some {| statusCode := 500; headers := cors_headers;
            body := JSON_stringify
                      (VObj [("error", VStr "Failed to parse World Bank API response");
                             ("message", VStr (message e));
                             ("rawData", VStr (substring 500 (data res)))]) |} /\
  String.prefix (substring 500 (data res)) (data res) = true /\
  (String.length (substring 500 (data res)) <= 500)%nat.
Proof.
  intros H Hs Hd. split; [| split; [apply substring_prefix | apply substring_length]].
  rewrite (first_signal_settles ev o _ _ H). simpl. f_equal.
  unfold on_end, end_try. rewrite Hs, Hd. reflexivity.
Qed.

Lemma undecodable_body_reported_witness :
  promise (settle sample_event [End_ not_json]) =
    Some {| statusCode := 500; headers := cors_headers;
            body := JSON_stringify
                      (VObj [("error", VStr "Failed to parse World Bank API response");
                             ("message", VStr "Unexpected token < in JSON at position 0");
                             ("rawData", VStr (substring 500 (data not_json)))]) |} /\
  String.prefix (substring 500 (data not_json)) (data not_json) = true /\
  (String.length (substring 500 (data not_json)) <= 500)%nat.
Proof.
  apply (undecodable_body_reported sample_event
           (options (wbApiUrl (Entry "KOR") (Entry "SL.UEM.TOTL.ZS") "2000" "2001"))
           not_json (Error "Unexpected token < in JSON at position 0") []);
    vm_compute; reflexivity.
Defined.

Lemma stringify_object_some (props : list (string * value)) :
  exists s, JSON_stringify (VObj props) = Some s.
Proof. eexists. reflexivity. Qed.

(** An [undefined] last member leaves no trace in the text. *)
Lemma stringify_optional_member (k1 k2 k3 : string) (v1 v2 : string) (c : option string) :
  JSON_stringify (VObj [(k1, VStr v1); (k2, VStr v2); (k3, optional c)]) =
  JSON_stringify (VObj ([(k1, VStr v1); (k2, VStr v2)]
                        ++ match c with Some x => [(k3, VStr x)] | None => [] end)).
Proof. destruct c; reflexivity. Qed.

(** X3. When the request fails before any response ends, the handler answers
    500 with the message of the error; the body has a member [code] exactly
    when the error carries one. *)
Theorem request_error_reported
    (ev : event) (o : request_options) (msg : string) (code : option string)
    (later : list signal) :
  WorldBank.handler ev = Request o ->
  promise (settle ev (Error_ msg code :: later)) =
    Some {| statusCode := 500; headers := cors_headers;
            body := JSON_stringify
                      (VObj ([("error", VStr "Failed to fetch data from World Bank API");
                              ("message", VStr msg)] ++ code_member code)) |}.
Proof.
  intros H. rewrite (first_signal_settles ev o _ _ H). simpl. f_equal.
  unfold on_error. f_equal. unfold code_member.
  rewrite stringify_optional_member. destruct code; reflexivity.
Qed.

Lemma request_error_reported_witness :
  promise (settle sample_event [Error_ "getaddrinfo ENOTFOUND api.worldbank.org" None]) =
    Some {| statusCode := 500; headers := cors_headers;
            body := JSON_stringify
                      (VObj [("error", VStr "Failed to fetch data from World Bank API");
                             ("message", VStr "getaddrinfo ENOTFOUND api.worldbank.org")]) |}.
Proof.
  apply (request_error_reported sample_event
           (options (wbApiUrl (Entry "KOR") (Entry "SL.UEM.TOTL.ZS") "2000" "2001"))
           "getaddrinfo ENOTFOUND api.worldbank.org" None []).
  vm_compute. reflexivity.
Defined.

Lemma resolve_settles r st : exists r', promise (resolve r st) = Some r'.
Proof. unfold resolve. destruct (promise st) eqn:E; simpl; eauto. Qed.

Lemma deliver_settles st s : exists r, promise (deliver st s) = Some r.
Proof. destruct s; simpl; apply resolve_settles. Qed.

(** X4. The promise of a request in flight is pending until the first signal
    arrives; that signal settles it, later signals do not change it, and the
    run never makes a second request. *)
Theorem first_signal_decides
    (ev : event) (o : request_options) (s : signal) (later : list signal) :
  WorldBank.handler ev = Request o ->
  promise (settle ev []) = None /\
  (exists r, promise (settle ev [s]) = Some r /\
             promise (settle ev (s :: later)) = Some r) /\
  requests (settle ev (s :: later)) = [o].
Proof.
  intros H. split; [| split].
  - unfold settle. rewrite H. reflexivity.
  - destruct (deliver_settles (in_flight o) s) as [r Hr]. exists r.
    rewrite !(first_signal_settles ev o _ _ H). split; exact Hr.
  - unfold settle. rewrite H. rewrite fold_deliver_keeps_requests. reflexivity.
Qed.

Lemma first_signal_decides_witness :
  promise (settle sample_event []) = None /\
  (exists r, promise (settle sample_event [End_ in_one_chunk]) = Some r /\
             promise (settle sample_event [End_ in_one_chunk; Timeout; Error_ "aborted" None])
             = Some r) /\
  requests (settle sample_event [End_ in_one_chunk; Timeout; Error_ "aborted" None]) =
    [options (wbApiUrl (Entry "KOR") (Entry "SL.UEM.TOTL.ZS") "2000" "2001")].
Proof.
  apply (first_signal_decides sample_event). vm_compute. reflexivity.
Defined.

(** ** When a handler calls its upstream *)

Lemma truthy_some (p : option string) :
  truthy p = true <-> exists s, p = Some s /\ s <> EmptyString.
Proof.
  destruct p as [s |]; simpl.
  - rewrite negb_true_iff, String.eqb_neq. split.
    + intros H. exists s. split; [reflexivity | exact H].
    + intros (s' & [= <-] & H). exact H.
  - split; [discriminate | intros (s & H & _); discriminate H].
Qed.

Lemma accepted_query (ev : event) :
  httpMethod ev = "GET" /\ rejected ev = false <->
  exists indicator country startYear endYear,
    valid_query ev indicator country startYear endYear.
Proof.
  unfold rejected, valid_query.
  rewrite !orb_false_iff, !negb_false_iff, !truthy_some. split.
  - intros (Hg & ((((i & Hi & Hi') & (c & Hc & Hc')) & (s & Hs & Hs')) & (e & He & He'))).
    exists i, c, s, e. tauto.
  - intros (i & c & s & e & Hg & Hi & Hi' & Hc & Hc' & Hs & Hs' & He & He').
    split; [exact Hg |]. repeat split; eauto.
Qed.

Lemma wb_request_inv (ev : event) (o : request_options) :
  WorldBank.handler ev = Request o <->
  httpMethod ev = "GET" /\ rejected ev = false /\
  o = options (wbApiUrl (wbCountry (text_of (parameters ev !! "country")))
                        (wbIndicator (text_of (parameters ev !! "indicator")))
                        (text_of (parameters ev !! "startYear"))
                        (text_of (parameters ev !! "endYear"))).
Proof.
  unfold WorldBank.handler, rejected. split.
  - destruct (String.eqb (httpMethod ev) "OPTIONS") eqn:Eo; [discriminate |].
    destruct (String.eqb (httpMethod ev) "GET") eqn:Eg; simpl; [| discriminate].
    apply String.eqb_eq in Eg.
    match goal with |- context [if ?c then _ else _] => destruct c end; [discriminate |].
    intros [= <-]. auto.
  - intros (Hg & Hr & ->). rewrite Hg. simpl. rewrite Hr. reflexivity.
Qed.

Lemma imf_calls_inv (ev : event) (url : string) :
  Imf.calls ev = [url] <->
  httpMethod ev = "GET" /\ rejected ev = false /\
  url = Imf.imfApiUrl (text_of (parameters ev !! "indicator"))
                      (text_of (parameters ev !! "country"))
                      (text_of (parameters ev !! "startYear"))
                      (text_of (parameters ev !! "endYear")).
Proof.
  unfold Imf.calls, Imf.handler, rejected. split.
  - destruct (String.eqb (httpMethod ev) "OPTIONS") eqn:Eo; [discriminate |].
    destruct (String.eqb (httpMethod ev) "GET") eqn:Eg; simpl; [| discriminate].
    apply String.eqb_eq in Eg.
    match goal with |- context [if ?c then _ else _] => destruct c end; [discriminate |].
    intros [= <-]. auto.
  - intros (Hg & Hr & ->). rewrite Hg. simpl. rewrite Hr. reflexivity.
Qed.

(** X5. The Development Bank handler sends its request exactly when the
    method is GET and the four parameters are present and not empty; the
    request is then a GET with the fixed headers and timeout, for the URL
    built from the translated country and indicator and the two years as
    given. *)
Theorem bank_request_when_valid (ev : event) (o : request_options) :
  WorldBank.handler ev = Request o <->
  exists indicator country startYear endYear : string,
    valid_query ev indicator country startYear endYear /\
    o = {| href := wbApiUrl (wbCountry country) (wbIndicator indicator) startYear endYear;
           method := "GET";
           request_headers := [ ("Accept", "application/json");
                                ("User-Agent", "World-Bank-Economic-Dashboard/1.0") ];
           timeout := 30000 |}.
Proof.
  rewrite wb_request_inv. split.
  - intros (Hg & Hr & ->).
    destruct (proj1 (accepted_query ev) (conj Hg Hr)) as (i & c & s & e & Hv).
    exists i, c, s, e. split; [exact Hv |].
    destruct Hv as (_ & Hi & _ & Hc & _ & Hs & _ & He & _).
    rewrite Hi, Hc, Hs, He. reflexivity.
  - intros (i & c & s & e & Hv & ->).
    destruct (proj2 (accepted_query ev) (ex_intro _ i (ex_intro _ c (ex_intro _ s
                (ex_intro _ e Hv))))) as [Hg Hr].
    split; [exact Hg |]. split; [exact Hr |].
    destruct Hv as (_ & Hi & _ & Hc & _ & Hs & _ & He & _).
    rewrite Hi, Hc, Hs, He. reflexivity.
Qed.

(** X6. The Fund handler calls [fetch] exactly when the method is GET and the
    four parameters are present and not empty; the URL then holds the four
    parameters as given, with no translation. *)
Theorem fund_fetch_when_valid (ev : event) (url : string) :
  Imf.calls ev = [url] <->
  exists indicator country startYear endYear : string,
    valid_query ev indicator country startYear endYear /\
    url = "https://www.imf.org/external/datamapper/api/v1/" ++ indicator ++ "/" ++ country
          ++ "?periods=" ++ startYear ++ "-" ++ endYear.
Proof.
  rewrite imf_calls_inv. split.
  - intros (Hg & Hr & ->).
    destruct (proj1 (accepted_query ev) (conj Hg Hr)) as (i & c & s & e & Hv).
    exists i, c, s, e. split; [exact Hv |].
    destruct Hv as (_ & Hi & _ & Hc & _ & Hs & _ & He & _).
    rewrite Hi, Hc, Hs, He. reflexivity.
  - intros (i & c & s & e & Hv & ->).
    destruct (proj2 (accepted_query ev) (ex_intro _ i (ex_intro _ c (ex_intro _ s
                (ex_intro _ e Hv))))) as [Hg Hr].
    split; [exact Hg |]. split; [exact Hr |].
    destruct Hv as (_ & Hi & _ & Hc & _ & Hs & _ & He & _).
    rewrite Hi, Hc, Hs, He. reflexivity.
Qed.

(** ** The Fund handler after [fetch] *)

Lemma stringify_undefined (v : value) : JSON_stringify v = None <-> v = VUndefined.
Proof.
  destruct v as [| | [|] | x | s | l | props]; simpl; split; intros H;
    try discriminate H; reflexivity.
Qed.

(** X8. When [fetch] resolves with an OK status and the body decodes, the
    Fund handler answers 200 and its body is the text of the decoded
    document: the upstream data is passed on as it is, with no
    normalization. *)
Theorem fund_success_passes_through
    (ev : event) (url : string) (response : Imf.Response) (data : value) :
  Imf.calls ev = [url] ->
  Imf.ok response = true ->
  Imf.json response = inr data ->
  data <> VUndefined ->
  exists s : string,
    JSON_stringify data = Some s /\
    Imf.respond ev (inr response) =
      {| statusCode := 200; headers := cors_headers; body := Some s |}.
Proof.
  intros H Hok Hj Hd. rewrite (imf_respond_after_fetch _ _ _ H).
  unfold Imf.after_fetch. simpl. rewrite Hok, Hj. simpl.
  destruct (JSON_stringify data) as [s |] eqn:E.
  - exists s. split; reflexivity.
  - apply stringify_undefined in E. contradiction.
Qed.

Lemma fund_success_passes_through_witness :
  exists s : string,
    JSON_stringify (VObj [("values", VObj [])]) = Some s /\
    Imf.respond sample_event (inr found) =
      {| statusCode := 200; headers := cors_headers; body := Some s |}.
Proof.
  apply (fund_success_passes_through sample_event
           (Imf.imfApiUrl "LUR" "KR" "2000" "2001") found);
    try (vm_compute; reflexivity).
  discriminate.
Defined.

(** X9. When [fetch] rejects, or resolves with an OK status and a body that
    does not decode, the Fund handler answers 500 and the message is the one
    of the exception. *)
Theorem fund_failure_reported
    (ev : event) (url : string) (settled : result Imf.Response) (e : exn) :
  Imf.calls ev = [url] ->
  settled = inl e \/
  (exists response, settled = inr response /\ Imf.ok response = true /\
                    Imf.json response = inl e) ->
  Imf.respond ev settled =
    {| statusCode := 500; headers := cors_headers;
       body := JSON_stringify
                 (VObj [("error", VStr "Failed to fetch data from IMF API");
                        ("message", VStr (message e))]) |}.
Proof.
  intros H Hs. rewrite (imf_respond_after_fetch _ _ _ H).
  destruct Hs as [-> | (response & -> & Hok & Hj)].
  - reflexivity.
  - unfold Imf.after_fetch. simpl. rewrite Hok, Hj. reflexivity.
Qed.

Lemma fund_failure_reported_witness :
  Imf.respond sample_event (inl (Error "fetch failed")) =
    {| statusCode := 500; headers := cors_headers;
       body := JSON_stringify
                 (VObj [("error", VStr "Failed to fetch data from IMF API");
                        ("message", VStr "fetch failed")]) |}.
Proof.
  apply (fund_failure_reported sample_event (Imf.imfApiUrl "LUR" "KR" "2000" "2001")
           (inl (Error "fetch failed")) (Error "fetch failed")).
  - vm_compute. reflexivity.
  - left. reflexivity.
Defined.

(** ** What every envelope satisfies *)

Lemma resolve_inv r st r' :
  promise (resolve r st) = Some r' -> promise st = Some r' \/ r' = r.
Proof.
  unfold resolve. destruct (promise st) eqn:E; simpl; intros H.
  - left. rewrite E in H. exact H.
  - right. congruence.
Qed.

(** A property of the envelopes the Development Bank handler builds holds of
    the envelope its promise is settled with. *)
Lemma settle_invariant (P : envelope -> Prop) (ev : event) (signals : list signal)
    (r : envelope) :
  (forall r0, WorldBank.handler ev = WorldBank.Return r0 -> P r0) ->
  (forall res, P (on_end res)) ->
  (forall msg code, P (on_error msg code)) ->
  P on_timeout ->
  (forall msg stack, P (on_throw msg stack)) ->
  promise (settle ev signals) = Some r -> P r.
Proof.
  intros Hret Hend Herr Htime Hthrow. unfold settle.
  destruct (WorldBank.handler ev) as [r0 | o] eqn:E.
  - intros [= <-]. apply Hret. reflexivity.
  - assert (Hinv : forall st, (forall r', promise st = Some r' -> P r') ->
                     forall r', promise (fold_left deliver signals st) = Some r' -> P r').
    { induction signals as [| s rest IH]; intros st Hst; simpl; [exact Hst |].
      apply IH. intros r' Hp.
      destruct s; simpl in Hp; apply resolve_inv in Hp as [Hp | ->]; auto. }
    apply Hinv. intros r' Hr'. discriminate Hr'.
Qed.

Lemma imf_after_fetch_status settled e :
  Imf.after_fetch settled = inr e ->
  statusCode e = 200%N /\ exists s, body e = Some s.
Proof.
  unfold Imf.after_fetch. destruct settled as [err | response]; simpl; [discriminate |].
  destruct (Imf.ok response); simpl.
  - destruct (Imf.json response) as [err | data]; simpl; [discriminate |].
    destruct (JSON_stringify data) as [s |] eqn:E; simpl; [| discriminate].
    intros [= <-]. simpl. eauto.
  - destruct (Imf.text response); simpl; discriminate.
Qed.

Lemma normalize_object jsonData t :
  normalize jsonData = inr t -> exists values, t = VObj [("values", VObj values)].
Proof.
  unfold normalize.
  destruct jsonData as [| | | | | items |]; try discriminate.
  destruct items as [| metadata [| second rest]]; try discriminate.
  destruct (dataArray second); try discriminate.
  destruct (forEach items []) as [e | values]; simpl; [discriminate |].
  intros [= <-]. eauto.
Qed.

Lemma end_try_status res e :
  end_try res = inr e ->
  (statusCode e = 200%N \/ statusCode e = 500%N) /\ exists s, body e = Some s.
Proof.
  unfold end_try. destruct (negb (res_statusCode res =? 200)%N).
  - intros [= <-]. simpl. eauto.
  - destruct (decoded res) as [err | jsonData]; simpl; [discriminate |].
    destruct (normalize jsonData) as [err | t] eqn:E; simpl; [discriminate |].
    intros [= <-]. simpl. apply normalize_object in E as [values ->]. eauto.
Qed.

(** X10. Every envelope of either handler has one of the statuses 200, 400,
    405 and 500: the envelope the Fund handler returns, whatever [fetch]
    settles with, and the envelope the promise of the Development Bank
    handler holds, whatever signals arrive. *)
Theorem status_codes_used
    (ev : event) (settled : result Imf.Response) (signals : list signal) (r : envelope) :
  r = Imf.respond ev settled \/ promise (settle ev signals) = Some r ->
  In (statusCode r) [200; 400; 405; 500]%N.
Proof.
  intros [-> | H].
  - unfold Imf.respond, Imf.handler. by_checks ev; simpl; try tauto.
    destruct (Imf.after_fetch settled) as [err | e] eqn:E; simpl; [tauto |].
    apply imf_after_fetch_status in E as [-> _]. simpl. tauto.
  - apply (settle_invariant (fun r0 => In (statusCode r0) [200; 400; 405; 500]%N)
             ev signals r); [ | | | | | exact H]; simpl; try tauto.
    + unfold WorldBank.handler. intros r0.
      by_checks ev; try discriminate; intros [= <-]; simpl; tauto.
    + intros res. unfold on_end. destruct (end_try res) as [err | e] eqn:E; simpl; [tauto |].
      apply end_try_status in E as [[-> | ->] _]; simpl; tauto.
Qed.

Lemma status_codes_used_witness :
  In (statusCode (Imf.respond sample_event (inr not_found))) [200; 400; 405; 500]%N.
Proof.
  eapply (status_codes_used sample_event _ []). left. reflexivity.
Defined.

(** X11. The [end] listener answers 200 exactly when the upstream status is
    200, the body decodes and the decoded document normalizes; in every other
    case it answers 500. *)
Theorem bank_success_characterised (res : IncomingMessage) :
  (statusCode (on_end res) = 200%N <->
   res_statusCode res = 200%N /\
   exists jsonData transformedData,
     decoded res = inr jsonData /\ normalize jsonData = inr transformedData) /\
  (statusCode (on_end res) = 200%N \/ statusCode (on_end res) = 500%N).
Proof.
  unfold on_end, end_try.
  destruct (res_statusCode res =? 200)%N eqn:Es; simpl.
  - apply N.eqb_eq in Es.
    destruct (decoded res) as [err | jsonData]; simpl.
    + split; [| tauto]. split; [discriminate |].
      intros (_ & j & t & Hd & _). discriminate Hd.
    + destruct (normalize jsonData) as [err | t] eqn:En; simpl.
      * split; [| tauto]. split; [discriminate |].
        intros (_ & j & t & [= <-] & Hn). congruence.
      * split; [| tauto]. split; [eauto 6 | reflexivity].
  - apply N.eqb_neq in Es. split; [| tauto]. split; [discriminate | tauto].
Qed.

(** X12. The body of every envelope of either handler is a text: no path
    leaves it undefined. *)
Theorem every_envelope_has_text_body
    (ev : event) (settled : result Imf.Response) (signals : list signal) (r : envelope) :
  r = Imf.respond ev settled \/ promise (settle ev signals) = Some r ->
  exists s : string, body r = Some s.
Proof.
  intros [-> | H].
  - unfold Imf.respond, Imf.handler. by_checks ev; simpl; eauto.
    destruct (Imf.after_fetch settled) as [err | e] eqn:E; simpl; [eauto |].
    apply imf_after_fetch_status in E as [_ Hb]. exact Hb.
  - apply (settle_invariant (fun r0 => exists s : string, body r0 = Some s)
             ev signals r); [ | | | | | exact H]; simpl; eauto.
    + unfold WorldBank.handler. intros r0.
      by_checks ev; try discriminate; intros [= <-]; simpl; eauto.
    + intros res. unfold on_end. destruct (end_try res) as [err | e] eqn:E; simpl; [eauto |].
      apply end_try_status in E as [_ Hb]. exact Hb.
Qed.

Lemma every_envelope_has_text_body_witness :
  exists s : string, body (Imf.respond sample_event (inr found)) = Some s.
Proof.
  eapply (every_envelope_has_text_body sample_event _ []). left. reflexivity.
Defined.

(** ** More on normalization *)

(** A payload that normalizes has the expected shape, its items can all be
    processed, and the result is the fold of [assign] over them. *)
Lemma normalize_inv (jsonData t : value) :
  normalize jsonData = inr t ->
  exists metadata second rest items,
    jsonData = VArr (metadata :: second :: rest) /\
    dataArray second = VArr items /\
    forallb readable items = true /\
    t = VObj [("values", VObj (fold_left assign items []))].
Proof.
  unfold normalize.
  destruct jsonData as [| | | | | l |]; try discriminate.
  destruct l as [| metadata [| second rest]]; try discriminate.
  destruct (dataArray second) as [| | | | | items |] eqn:Ed; try discriminate.
  destruct (forallb readable items) eqn:Er.
  - rewrite (forEach_readable _ _ Er). simpl. intros [= <-].
    exists metadata, second, rest, items. repeat split; try reflexivity; assumption.
  - destruct (forEach_unreadable items [] Er) as [e He]. rewrite He. discriminate.
Qed.

(** X14. Normalization returns a result exactly for a decoded payload that is
    an array of at least two items whose second item is falsy or an array of
    items the callback can process (none is null, and the date of every
    selected item converts to a string); for every other payload it
    throws. *)
Theorem normalization_succeeds_iff (jsonData : value) :
  (exists t, normalize jsonData = inr t) <->
  (exists metadata second rest items,
     jsonData = VArr (metadata :: second :: rest) /\
     dataArray second = VArr items /\
     forallb readable items = true).
Proof.
  split.
  - intros [t H]. apply normalize_inv in H as (m & second & rest & items & H1 & H2 & H3 & _).
    eauto 8.
  - intros (m & second & rest & items & -> & Hd & Hr).
    eexists. simpl. rewrite Hd, (forEach_readable _ _ Hr). reflexivity.
Qed.

Lemma assign_map (items : list value) (values : list (string * value)) :
  (list_to_map (fold_left assign items values) : gmap string value) =
  fold_left write items (list_to_map values).
Proof. apply fold_Set_map. Qed.

Lemma write_lookup_inv (items : list value) (m : gmap string value) (k : string) (v : value) :
  fold_left write items m !! k = Some v ->
  m !! k = Some v \/ exists item, In item items /\ entry item = Some (k, v).
Proof.
  revert m. induction items as [| item rest IH]; intros m H; simpl in *; [auto |].
  apply IH in H as [H | (it & Hin & He)]; [| right; eauto].
  unfold write in H. destruct (entry item) as [[k' v'] |] eqn:E; [| auto].
  destruct (decide (k' = k)) as [-> | Hne].
  - rewrite lookup_insert_eq in H. injection H as ->. right. eauto.
  - rewrite lookup_insert_ne in H by exact Hne. auto.
Qed.

Lemma write_lookup_other (items : list value) (m : gmap string value) (k : string) :
  k ∉ written_keys items -> fold_left write items m !! k = m !! k.
Proof.
  revert m. induction items as [| item rest IH]; intros m H; simpl; [reflexivity |].
  unfold written_keys in H. simpl in H. unfold write at 2.
  destruct (entry item) as [[k' v'] |] eqn:E; simpl in H.
  - apply not_elem_of_cons in H as [Hne Hrest].
    rewrite (IH _ Hrest). apply lookup_insert_ne. congruence.
  - apply IH, H.
Qed.

Lemma write_lookup_last (l1 l2 : list value) (item : value) (m : gmap string value)
    (k : string) (v : value) :
  entry item = Some (k, v) -> k ∉ written_keys l2 ->
  fold_left write (l1 ++ item :: l2) m !! k = Some v.
Proof.
  intros He Hk. rewrite fold_left_app. simpl.
  rewrite (write_lookup_other _ _ _ Hk). unfold write at 1. rewrite He.
  apply lookup_insert_eq.
Qed.

Lemma entry_inv (item : value) (k : string) (v : value) :
  entry item = Some (k, v) ->
  ToBoolean (field item "date") = true /\ field item "value" = v /\ v <> VNull /\
  year_key (field item "date") = Some k.
Proof.
  unfold entry. destruct (ToBoolean (field item "date")); simpl; [| discriminate].
  destruct (is_null (field item "value")) eqn:En; simpl; [discriminate |].
  destruct (year_key (field item "date")) as [k' |]; [| discriminate].
  intros [= <- <-]. repeat split; try reflexivity.
  intros Hn. rewrite Hn in En. discriminate En.
Qed.

Lemma normalized_values (metadata : value) (items rest : list value)
    (values : list (string * value)) :
  normalize (VArr (metadata :: VArr items :: rest)) = inr (VObj [("values", VObj values)]) ->
  forallb readable items = true /\
  values = fold_left assign items [] /\
  forall k, own values k = fold_left write items ∅ !! k.
Proof.
  intros H. apply normalize_inv in H as (m & second & rest' & items' & Hj & Hd & Hr & Ht).
  injection Hj as <- <- <-. simpl in Hd. injection Hd as <-.
  injection Ht as ->. split; [exact Hr |]. split; [reflexivity |].
  intros k. rewrite <- own_lookup, assign_map. reflexivity.
Qed.

(** X15. Every property of the normalized series comes from an item of the
    payload: its value is the value of an item whose date is truthy and
    parses to that key, and it is never null. *)
Theorem entries_come_from_items
    (metadata : value) (items rest : list value) (values : list (string * value))
    (k : string) (v : value) :
  normalize (VArr (metadata :: VArr items :: rest)) = inr (VObj [("values", VObj values)]) ->
  own values k = Some v ->
  v <> VNull /\
  exists item, In item items /\
               ToBoolean (field item "date") = true /\
               year_key (field item "date") = Some k /\
               field item "value" = v.
Proof.
  intros H Hk. apply normalized_values in H as (_ & _ & Hown).
  rewrite Hown in Hk. apply write_lookup_inv in Hk as [Hk | (item & Hin & He)].
  - rewrite lookup_empty in Hk. discriminate Hk.
  - apply entry_inv in He as (Hd & Hv & Hn & Hy). split; [exact Hn |]. eauto.
Qed.

Lemma entries_come_from_items_witness :
  VNum 5.1 <> VNull /\
  exists item, In item [ VObj [("date", VStr "2020"); ("value", VNum 5.1)];
                         VObj [("date", VStr "2021"); ("value", VNull)];
                         VObj [("date", VStr "2022"); ("value", VNum 3.0)] ] /\
               ToBoolean (field item "date") = true /\
               year_key (field item "date") = Some "2020" /\
               field item "value" = VNum 5.1.
Proof.
  apply (entries_come_from_items (VObj [("page", VNum 1)]) _ []
           [("2020", VNum 5.1); ("2022", VNum 3)]);
    vm_compute; reflexivity.
Defined.

(** X16. The last item that writes a year decides its value: if an item is
    selected for a key and no later item of the payload writes that key, the
    normalized series holds the value of that item, whatever earlier items
    wrote. *)
Theorem last_write_wins
    (metadata : value) (earlier later rest : list value) (item : value)
    (values : list (string * value)) (k : string) (v : value) :
  normalize (VArr (metadata :: VArr (earlier ++ item :: later) :: rest)) =
    inr (VObj [("values", VObj values)]) ->
  entry item = Some (k, v) ->
  k ∉ written_keys later ->
  own values k = Some v.
Proof.
  intros H He Hk. apply normalized_values in H as (_ & _ & Hown).
  rewrite Hown. apply write_lookup_last; assumption.
Qed.

Lemma last_write_wins_witness :
  own [("2020", VNum 7); ("2022", VNum 3)] "2020" = Some (VNum 7).
Proof.
  apply (last_write_wins (VObj [("page", VNum 1)]) newest_first [] [] correction
           [("2020", VNum 7); ("2022", VNum 3)] "2020" (VNum 7)).
  - vm_compute. reflexivity.
  - vm_compute. reflexivity.
  - apply not_elem_of_nil.
Defined.

Lemma written_keys_app (l1 l2 : list value) :
  written_keys (l1 ++ l2) = (written_keys l1 ++ written_keys l2)%list.
Proof. unfold written_keys. apply omap_app. Qed.

Lemma written_keys_entry (item : value) (k : string) (v : value) (l : list value) :
  entry item = Some (k, v) -> written_keys (item :: l) = k :: written_keys l.
Proof. intros H. unfold written_keys. simpl. rewrite H. reflexivity. Qed.

(** With one item per year, the series holds exactly the entries of the
    items. *)
Lemma write_lookup_distinct (items : list value) (k : string) (v : value) :
  NoDup (written_keys items) ->
  fold_left write items ∅ !! k = Some v <->
  exists item, In item items /\ entry item = Some (k, v).
Proof.
  intros Hnd. split.
  - intros H. apply write_lookup_inv in H as [H | H]; [| exact H].
    rewrite lookup_empty in H. discriminate H.
  - intros (item & Hin & He). apply in_split in Hin as (l1 & l2 & ->).
    apply write_lookup_last; [exact He |].
    rewrite written_keys_app, (written_keys_entry _ _ _ _ He) in Hnd.
    apply NoDup_app in Hnd as (_ & _ & Hnd). apply NoDup_cons in Hnd as [Hk _]. exact Hk.
Qed.

Lemma readable_permutation (l1 l2 : list value) :
  l1 ≡ₚ l2 -> forallb readable l1 = true -> forallb readable l2 = true.
Proof.
  intros Hp. rewrite !forallb_forall. intros H x Hx. apply H.
  apply list_elem_of_In. rewrite Hp. apply list_elem_of_In. exact Hx.
Qed.

(** X17. When no two selected items of a payload write the same year, the
    order of the items does not matter: a payload with the same items in
    another order normalizes too, and to a series with the same
    properties. *)
Theorem order_irrelevant_for_distinct_years
    (metadata metadata' : value) (items items' rest rest' : list value)
    (values : list (string * value)) :
  items ≡ₚ items' ->
  NoDup (written_keys items) ->
  normalize (VArr (metadata :: VArr items :: rest)) = inr (VObj [("values", VObj values)]) ->
  exists values' : list (string * value),
    normalize (VArr (metadata' :: VArr items' :: rest')) =
      inr (VObj [("values", VObj values')]) /\
    forall k, own values' k = own values k.
Proof.
  intros Hp Hnd H. apply normalized_values in H as (Hr & _ & Hown).
  pose proof (readable_permutation _ _ Hp Hr) as Hr'.
  exists (fold_left assign items' []). split.
  - simpl. rewrite (forEach_readable _ _ Hr'). reflexivity.
  - intros k. rewrite Hown, <- own_lookup, assign_map.
    assert (Hnd' : NoDup (written_keys items')).
    { unfold written_keys in *. rewrite <- Hp. exact Hnd. }
    apply option_eq. intros v.
    rewrite (write_lookup_distinct _ _ _ Hnd), (write_lookup_distinct _ _ _ Hnd').
    split; intros (item & Hin & He); exists item; (split; [| exact He]);
      apply list_elem_of_In; apply list_elem_of_In in Hin;
      [rewrite Hp | rewrite <- Hp]; exact Hin.
Qed.

Lemma order_irrelevant_for_distinct_years_witness :
  exists values' : list (string * value),
    normalize (VArr [VNull; VArr (rev newest_first)]) =
      inr (VObj [("values", VObj values')]) /\
    forall k, own values' k = own [("2020", VNum 5.1); ("2022", VNum 3)] k.
Proof.
  apply (order_irrelevant_for_distinct_years (VObj [("page", VNum 1)]) VNull
           newest_first (rev newest_first) [] []).
  - apply Permutation_rev.
  - apply (bool_decide_unpack _). vm_compute. exact I.
  - vm_compute. reflexivity.
Defined.

(** ** The order of the years in the body *)

Lemma forallb_permutation {A} (f : A -> bool) (l1 l2 : list A) :
  l1 ≡ₚ l2 -> forallb f l1 = true -> forallb f l2 = true.
Proof.
  intros Hp. rewrite !forallb_forall. intros H x Hx. apply H.
  apply list_elem_of_In. rewrite Hp. apply list_elem_of_In. exact Hx.
Qed.

Lemma before_from_index (k x : string) (i : Z) :
  array_index k = Some i ->
  before k x = match array_index x with Some j => i <=? j | None => true end.
Proof. intros H. unfold before. rewrite H. reflexivity. Qed.

(** A new index key may stand before whatever a larger or equal index key,
    or a key that is no index, stands before. *)
Lemma before_head (k k0 : string) (i : Z) (rest : list string) :
  array_index k = Some i ->
  before k k0 = true ->
  forallb (before k0) rest = true ->
  forallb (before k) rest = true.
Proof.
  intros Hk Hkk0 H. rewrite forallb_forall in *. intros x Hx. specialize (H x Hx).
  rewrite (before_from_index k k0 i Hk) in Hkk0. rewrite (before_from_index k x i Hk).
  unfold before in H.
  destruct (array_index k0) as [j |], (array_index x) as [l |]; try reflexivity;
    try discriminate.
  apply Z.leb_le in Hkk0, H. apply Z.leb_le. lia.
Qed.

Lemma ascending_snoc (keys : list string) (k : string) :
  array_index k = None -> ascending keys = true -> ascending (keys ++ [k])%list = true.
Proof.
  intros Hk. induction keys as [| a keys IH]; simpl; [reflexivity |].
  rewrite !andb_true_iff. intros [Ha Hrest]. split; [| apply IH, Hrest].
  rewrite forallb_app, Ha. simpl. unfold before. rewrite Hk.
  destruct (array_index a); reflexivity.
Qed.

Lemma ascending_insert_index (i : Z) (k : string) (v : value) (props : list (string * value)) :
  array_index k = Some i ->
  ascending props.*1 = true ->
  ascending (insert_index i k v props).*1 = true.
Proof.
  intros Hk. induction props as [| [k0 v0] rest IH]; [reflexivity |].
  change (ascending ((k0, v0) :: rest).*1)
    with (forallb (before k0) rest.*1 && ascending rest.*1).
  rewrite andb_true_iff. intros [Hhead Hrest].
  assert (Hfront : before k k0 = true ->
                   ascending ((k, v) :: (k0, v0) :: rest).*1 = true).
  { intros Hkk0.
    change (before k k0 && forallb (before k) rest.*1
            && (forallb (before k0) rest.*1 && ascending rest.*1) = true).
    rewrite Hkk0, (before_head _ _ _ _ Hk Hkk0 Hhead), Hhead, Hrest. reflexivity. }
  simpl insert_index. destruct (array_index k0) as [j |] eqn:Ek0.
  - destruct (j <? i) eqn:Eji.
    + change (forallb (before k0) (insert_index i k v rest).*1
              && ascending (insert_index i k v rest).*1 = true).
      apply andb_true_iff. split; [| apply IH, Hrest].
      apply (forallb_permutation _ (k :: rest.*1)); [symmetry; apply insert_index_keys |].
      change (before k0 k && forallb (before k0) rest.*1 = true).
      apply andb_true_iff. split; [| exact Hhead].
      unfold before. rewrite Ek0, Hk. apply Z.ltb_lt in Eji. apply Z.leb_le. lia.
    + apply Hfront. unfold before. rewrite Hk, Ek0.
      apply Z.ltb_ge in Eji. apply Z.leb_le. lia.
  - apply Hfront. unfold before. rewrite Hk, Ek0. reflexivity.
Qed.

Lemma Set_ascending (props : list (string * value)) (k : string) (v : value) :
  ascending props.*1 = true -> ascending (Set_ props k v).*1 = true.
Proof.
  intros H. unfold Set_. destruct (own props k).
  - rewrite replace_keys. exact H.
  - destruct (array_index k) as [i |] eqn:Ek.
    + apply ascending_insert_index; assumption.
    + rewrite fmap_app. apply ascending_snoc; assumption.
Qed.

Lemma assign_ascending (items : list value) (values : list (string * value)) :
  ascending values.*1 = true -> ascending (fold_left assign items values).*1 = true.
Proof.
  revert values. induction items as [| item rest IH]; intros values H; simpl; [exact H |].
  apply IH. unfold assign. destruct (entry item) as [[k v] |]; [apply Set_ascending |]; exact H.
Qed.

(** X18. Whatever the order of the items of the payload, the property names
    of the normalized series are distinct, and the years (the names that are
    array indices) come first and in ascending numeric order; the text of the
    body lists the members in that order. *)
Theorem years_ascending (jsonData : value) (values : list (string * value)) :
  normalize jsonData = inr (VObj [("values", VObj values)]) ->
  NoDup values.*1 /\ ascending values.*1 = true.
Proof.
  intros H. apply normalize_inv in H as (m & second & rest & items & _ & _ & _ & Ht).
  injection Ht as ->. split.
  - apply fold_Set_NoDup, NoDup_nil_2.
  - apply assign_ascending. reflexivity.
Qed.

Lemma years_ascending_witness :
  NoDup ["2020"; "2022"] /\ ascending ["2020"; "2022"] = true.
Proof.
  apply (years_ascending (VArr [VNull; VArr newest_first])
           [("2020", VNum 5.1); ("2022", VNum 3)]).
  vm_compute. reflexivity.
Defined.

(** ** More on code translation *)

Lemma inherited_is_no_entry (code : string) (m : member) :
  Object_prototype code = Some m -> forall s, m <> Entry s.
Proof.
  unfold Object_prototype.
  destruct (String.eqb code "constructor"); [intros [= <-]; discriminate |].
  destruct (String.eqb code "__proto__"); [intros [= <-]; discriminate |].
  match goal with |- context [if ?c then _ else _] => destruct c end;
    [intros [= <-]; discriminate | discriminate].
Qed.

(** X19. Every code of the two tables is translated to its entry, and the
    translation is idempotent: the provider's own code, sent in place of the
    application's, passes through unchanged. *)
Theorem table_codes_translate (table : gmap string string) (code s : string) :
  table = countryMap \/ table = indicatorMap ->
  table !! code = Some s ->
  translate table code = Entry s /\ translate table s = Entry s.
Proof.
  intros [-> | ->] H.
  - unfold countryMap in H. each_entry H; split; vm_compute; reflexivity.
  - unfold indicatorMap in H. each_entry H; split; vm_compute; reflexivity.
Qed.

Lemma table_codes_translate_witness :
  translate indicatorMap "NGDP_RPCH" = Entry "NY.GDP.MKTP.KD.ZG" /\
  translate indicatorMap "NY.GDP.MKTP.KD.ZG" = Entry "NY.GDP.MKTP.KD.ZG".
Proof.
  apply table_codes_translate; [right; reflexivity | vm_compute; reflexivity].
Defined.

(** X20. A code is passed through unchanged exactly when it has no entry in
    the table and is not the name of a property of [Object.prototype]: a code
    with an entry is replaced by it, and an inherited name is replaced by the
    member it names. *)
Theorem pass_through_characterised (table : gmap string string) (code : string) :
  table = countryMap \/ table = indicatorMap ->
  (translate table code = Entry code <->
   table !! code = None /\ Object_prototype code = None).
Proof.
  intros Ht. split.
  - unfold translate, lookup. destruct (table !! code) as [s |] eqn:E.
    + destruct Ht as [-> | ->];
        [unfold countryMap in E | unfold indicatorMap in E];
        each_entry E; vm_compute; discriminate.
    + destruct (Object_prototype code) as [m |] eqn:Ep; [| auto].
      intros H. destruct m as [s | name |]; simpl in H;
        [exfalso; exact (inherited_is_no_entry _ _ Ep s eq_refl) | discriminate H ..].
  - intros [H Hp]. apply translate_unmapped; assumption.
Qed.

Lemma pass_through_characterised_witness :
  translate countryMap "ZZ" = Entry "ZZ" <->
  countryMap !! "ZZ" = None /\ Object_prototype "ZZ" = None.
Proof. apply pass_through_characterised. left. reflexivity. Defined.

(** ** The whole success path *)

(** X21. When the upstream answers 200 with a body that decodes and
    normalizes, the promise of the Development Bank handler holds a 200
    envelope whose body is the text of the normalized object; later signals,
    a timeout among them, do not replace it. *)
Theorem normalized_payload_resolved
    (ev : event) (o : request_options) (res : IncomingMessage)
    (jsonData transformedData : value) (later : list signal) :
  WorldBank.handler ev = Request o ->
  res_statusCode res = 200%N ->
  decoded res = inr jsonData ->
  normalize jsonData = inr transformedData ->
  exists s : string,
    JSON_stringify transformedData = Some s /\
    promise (settle ev (End_ res :: later)) =
      Some {| statusCode := 200; headers := cors_headers; body := Some s |}.
Proof.
  intros H Hs Hd Hn.
  destruct (normalize_object _ _ Hn) as [values ->].
  destruct (stringify_object_some [("values", VObj values)]) as [s Hstr].
  exists s. split; [exact Hstr |].
  rewrite (first_signal_settles ev o _ _ H). simpl. f_equal.
  rewrite (normalized_payload_served _ _ _ Hs Hd Hn), Hstr. reflexivity.
Qed.

Lemma normalized_payload_resolved_witness :
  exists s : string,
    JSON_stringify (VObj [("values", VObj [])]) = Some s /\
    promise (settle sample_event [End_ in_three_chunks; Timeout]) =
      Some {| statusCode := 200; headers := cors_headers; body := Some s |}.
Proof.
  apply (normalized_payload_resolved sample_event
           (options (wbApiUrl (Entry "KOR") (Entry "SL.UEM.TOTL.ZS") "2000" "2001"))
           in_three_chunks (VArr [VObj []; VNull]));
    vm_compute; reflexivity.
Defined.
